(** * deskviz: the data pipeline of [visualize_desk.py]

    A shallow embedding of the load / derive / aggregate / summarise
    pipeline of [src/visualize_desk.py], and the properties its
    specification states about it.

    Conventions of the embedding.
    - Python exceptions are values of [exn]; a computation that may raise
      returns a [result].
    - Timestamps are naive date-times, as the specification's data model
      has them.  A [datetime] is a record of its calendar date and its
      time fields; [date_of] is the method [.date()].
    - A [timedelta] is its total number of microseconds.
    - Python floats are IEEE-754 binary64 numbers: the kernel's primitive
      [float], whose operations round to nearest, ties to even, as
      CPython's do.  The integers [0] and [60] that the source mixes with
      floats stand here as the floats [0] and [60], the values Python
      converts them to in every mixed operation.
    - The [csv] reader's tokenisation and the two string parsers
      ([datetime.fromisoformat], [int]) are library code: the loader takes
      the reader's records as input and the parsers as parameters. *)

From Stdlib Require Import ZArith QArith Floats Uint63 Lia Bool Ascii.
From stdpp Require Import gmap strings list sorting.

Open Scope Z_scope.

(** ** Exceptions and results *)

Inductive exn : Type :=
  (* Built-in exceptions the statements of the source can raise.  A
     [ValueError] holds what its message quotes: the text that did not
     parse, or the built-in that was called on an empty list. *)
  | KeyError (key : string)
  | TypeError
  | ValueError (arg : string)
  | IndexError
  | ZeroDivisionError
  (* Error conditions named by the specification.  No statement of the
     source raises them; they are here so that the specification's
     requirements can be stated and compared with what is raised. *)
  | MalformedRecordError (position : nat)
  | EmptyDataset.

Inductive result (A : Type) : Type :=
  | Ok (a : A)
  | Raise (e : exn).
Arguments Ok {A} a.
Arguments Raise {A} e.

#[global] Instance result_ret : MRet result := fun A a => Ok a.
#[global] Instance result_bind : MBind result := fun A B f r =>
  match r with
  | Ok a => f a
  | Raise e => Raise e
  end.

(** [for x in xs: s = body(s, x)], stopping at the first exception. *)
Fixpoint for_in {A S : Type} (xs : list A) (body : S -> A -> result S) (s : S)
  : result S :=
  match xs with
  | [] => Ok s
  | x :: xs' => s' ← body s x; for_in xs' body s'
  end.

(** [range(n)] for an integer [n]: empty when [n <= 0]. *)
Definition py_range (n : Z) : list nat := seq 0 (Z.to_nat n).

(** [xs[i]] for a non-negative index: [IndexError] out of range. *)
Definition getitem {A : Type} (xs : list A) (i : nat) : result A :=
  match xs !! i with
  | Some x => Ok x
  | None => Raise IndexError
  end.

(** [len(xs)], a Python integer. *)
Definition len {A : Type} (xs : list A) : Z := Z.of_nat (length xs).

(** ** Calendar dates and naive date-times *)

Record date : Type := Date { year : Z; month : Z; day : Z }.

Record datetime : Type := Datetime {
  date_of : date;          (* the method .date() *)
  hour : Z;
  minute : Z;
  second : Z;
  microsecond : Z
}.

#[global] Instance date_eq_dec : EqDecision date.
Proof. solve_decision. Defined.

#[global] Instance date_countable : Countable date.
Proof.
  refine (inj_countable' (fun d => (year d, month d, day d))
                         (fun t => Date t.1.1 t.1.2 t.2) _).
  by intros [].
Defined.

#[global] Instance datetime_eq_dec : EqDecision datetime.
Proof. solve_decision. Defined.

Definition is_leap (y : Z) : bool :=
  (y mod 4 =? 0) && (negb (y mod 100 =? 0) || (y mod 400 =? 0)).

Definition days_in_month (y m : Z) : Z :=
  if (m =? 2) && is_leap y then 29
  else nth (Z.to_nat m) [-1; 31; 28; 31; 30; 31; 30; 31; 31; 30; 31; 30; 31] (-1).

Definition days_before_year (y : Z) : Z :=
  let y' := y - 1 in y' * 365 + y' / 4 - y' / 100 + y' / 400.

Definition days_before_month (y m : Z) : Z :=
  nth (Z.to_nat m) [-1; 0; 31; 59; 90; 120; 151; 181; 212; 243; 273; 304; 334] (-1)
  + (if (2 <? m) && is_leap y then 1 else 0).

(** [date.toordinal()]: days since 0001-01-01, that day being 1. *)
Definition toordinal (d : date) : Z :=
  days_before_year (year d) + days_before_month (year d) (month d) + day d.

(** The ranges the constructors of [date] and [datetime] enforce. *)
Definition date_valid (d : date) : bool :=
  (1 <=? year d) && (year d <=? 9999) && (1 <=? month d) && (month d <=? 12)
  && (1 <=? day d) && (day d <=? days_in_month (year d) (month d)).

Definition datetime_valid (t : datetime) : bool :=
  date_valid (date_of t)
  && (0 <=? hour t) && (hour t <? 24)
  && (0 <=? minute t) && (minute t <? 60)
  && (0 <=? second t) && (second t <? 60)
  && (0 <=? microsecond t) && (microsecond t <? 1000000).

(** Order of dates and of naive date-times: lexicographic on the fields. *)
Definition date_compare (a b : date) : comparison :=
  match year a ?= year b with
  | Eq => match month a ?= month b with
          | Eq => day a ?= day b
          | c => c
          end
  | c => c
  end.

Definition datetime_compare (a b : datetime) : comparison :=
  match date_compare (date_of a) (date_of b) with
  | Eq => match hour a ?= hour b with
          | Eq => match minute a ?= minute b with
                  | Eq => match second a ?= second b with
                          | Eq => microsecond a ?= microsecond b
                          | c => c
                          end
                  | c => c
                  end
          | c => c
          end
  | c => c
  end.


Definition date_leb (a b : date) : bool :=
  match date_compare a b with Gt => false | _ => true end.

(** A [timedelta], as its total number of microseconds. *)
Definition timedelta : Type := Z.

Definition seconds_of_day (t : datetime) : Z :=
  second t + minute t * 60 + hour t * 3600.

(** [a - b] for two naive date-times. *)
Definition datetime_sub (a b : datetime) : timedelta :=
  ((toordinal (date_of a) - toordinal (date_of b)) * 86400
   + (seconds_of_day a - seconds_of_day b)) * 1000000
  + (microsecond a - microsecond b).

(** ** Python floats *)

(** The float nearest to an integer.  CPython divides two integers with
    one rounding of the exact quotient; for [|z| < 2^53] that is the
    division of the two floats, both conversions being exact.  Differences
    of two times of one day are below [86_400_000_000 < 2^53]. *)
Definition float_of_Z (z : Z) : float :=
  if z <? 0 then (- of_uint63 (Uint63.of_Z (- z)))%float
  else of_uint63 (Uint63.of_Z z).

(** [td.total_seconds()], which is [microseconds / 10**6]. *)
Definition total_seconds (td : timedelta) : float :=
  (float_of_Z td / 1000000)%float.

(** [min(a, b)]: the first argument unless the second is strictly less. *)
Definition py_min (a b : float) : float :=
  if (b <? a)%float then b else a.

(** [total = 0], then [total += x] for each [x] of [xs] in order. *)
Definition accumulate (xs : list float) : float :=
  foldl (fun total x => total + x)%float 0%float xs.

(** ** Samples and intervals *)

Definition STANDING_THRESHOLD : Z := 900.

Module Sample.
Record t : Type := Make {
  timestamp : datetime;
  height : Z;
  is_standing : bool
}.
End Sample.

Module Interval.
Record t : Type := Make {
  start : datetime;
  end_ : datetime;
  duration_min : float;
  is_standing : bool;
  height : Z
}.
End Interval.

(** ** Duration Deriver: [calculate_durations] *)

(** [(next - current).total_seconds() / 60]. *)
Definition elapsed_minutes (current next_entry : Sample.t) : float :=
  (total_seconds (datetime_sub (Sample.timestamp next_entry) (Sample.timestamp current))
   / 60)%float.

(** The body of the loop, at index [i], on the list built so far. *)
Definition calculate_durations_body (data : list Sample.t)
    (durations : list Interval.t) (i : nat) : result (list Interval.t) :=
  current ← getitem data i;
  next_entry ← getitem data (i + 1)%nat;
  if decide (date_of (Sample.timestamp current) = date_of (Sample.timestamp next_entry))
  then
    let duration := elapsed_minutes current next_entry in
    let duration := py_min duration 60 in
    Ok (durations ++
        [ Interval.Make (Sample.timestamp current) (Sample.timestamp next_entry)
            duration (Sample.is_standing current) (Sample.height current) ])
  else Ok durations.

Definition calculate_durations (data : list Sample.t) : result (list Interval.t) :=
  for_in (py_range (len data - 1)) (calculate_durations_body data) [].

(** ** Daily Aggregator: [aggregate_by_day] *)

(** One value of [daily]: the dictionary
    [{"standing": _, "sitting": _, "entries": _}]. *)
Record day_stats : Type := DayStats {
  standing : float;
  sitting : float;
  entries : list Interval.t
}.

(** The default factory of the [defaultdict]. *)
Definition default_factory : day_stats := DayStats 0 0 [].

(** [daily[day]] on the [defaultdict]: a missing key is first bound to a
    fresh default.  Returns the value and the dictionary after the access. *)
Definition defaultdict_getitem (daily : gmap date day_stats) (day : date)
  : day_stats * gmap date day_stats :=
  match daily !! day with
  | Some v => (v, daily)
  | None => (default_factory, <[day := default_factory]> daily)
  end.

(** The body of the loop.  The values of [daily] are mutated in place,
    which is an update of the binding of [day]. *)
Definition aggregate_by_day_body (daily : gmap date day_stats) (d : Interval.t)
  : gmap date day_stats :=
  let day := date_of (Interval.start d) in
  let '(v, daily) := defaultdict_getitem daily day in
  let daily :=
    if Interval.is_standing d
    then <[day := DayStats (standing v + Interval.duration_min d) (sitting v) (entries v)]> daily
    else <[day := DayStats (standing v) (sitting v + Interval.duration_min d) (entries v)]> daily in
  let '(v, daily) := defaultdict_getitem daily day in
  <[day := DayStats (standing v) (sitting v) (entries v ++ [d])]> daily.

Definition aggregate_by_day (durations : list Interval.t) : gmap date day_stats :=
  foldl aggregate_by_day_body ∅ durations.

(** ** Loader: [load_data] *)

Section Loader.
(** [datetime.fromisoformat] and [int] on a string: [None] where Python
    raises [ValueError]. *)
Variable parse_isoformat : string -> option datetime.
Variable parse_int : string -> option Z.

(** The two calls on a field of a row, which is a string or Python's
    [None] (the [restval] of a short row). *)
Definition fromisoformat (v : option string) : result datetime :=
  match v with
  | None => Raise TypeError
  | Some s => match parse_isoformat s with
              | Some t => Ok t
              | None => Raise (ValueError s)
              end
  end.

Definition int (v : option string) : result Z :=
  match v with
  | None => Raise TypeError
  | Some s => match parse_int s with
              | Some z => Ok z
              | None => Raise (ValueError s)
              end
  end.

(** [dict(zip(fieldnames, row))], the field names a short row leaves out
    bound to [None]; a later duplicate of a name wins.  (The surplus
    fields of a long row go under the key [None], which no lookup of the
    source reads.) *)
Definition DictReader_row (fieldnames row : list string) : gmap string (option string) :=
  foldl (fun d kv => <[kv.1 := kv.2]> d) ∅
    (zip fieldnames
         (map Some row ++ replicate (length fieldnames - length row)%nat None)).

(** [csv.DictReader(f)] over the records the [csv] reader yields: the
    first record gives the field names, empty records are skipped. *)
Definition DictReader (records : list (list string)) : list (gmap string (option string)) :=
  match records with
  | [] => []
  | fieldnames :: rows =>
      map (DictReader_row fieldnames) (filter (fun r => r ≠ []) rows)
  end.

(** [row[key]]. *)
Definition dict_getitem (row : gmap string (option string)) (key : string)
  : result (option string) :=
  match row !! key with
  | Some v => Ok v
  | None => Raise (KeyError key)
  end.

Definition load_data_body (data : list Sample.t) (row : gmap string (option string))
  : result (list Sample.t) :=
  ts ← dict_getitem row "timestamp";
  timestamp ← fromisoformat ts;
  h ← dict_getitem row "height_mm";
  height ← int h;
  let is_standing := bool_decide (STANDING_THRESHOLD <= height) in
  Ok (data ++ [Sample.Make timestamp height is_standing]).

Definition load_data (records : list (list string)) : result (list Sample.t) :=
  for_in (DictReader records) load_data_body [].

End Loader.

(** ** Reporter: the summary of [create_visualization] *)

(** What [print] writes, one constructor per call, the numbers before
    formatting. *)
Inductive line : Type :=
  | Rule
  | Title
  | DateRange (first last : date)
  | TotalDays (n : Z)
  | TotalStanding (minutes hours : float)
  | TotalSitting (minutes hours : float)
  | StandingPercentage (p : float)
  | SittingPercentage (p : float)
  | AveragePerDay
  | AverageStanding (minutes : float)
  | AverageSitting (minutes : float).

(** A computation that prints and may raise: it maps the output written
    so far to the output after it and its result. *)
Definition io (A : Type) : Type := list line -> list line * result A.

#[global] Instance io_ret : MRet io := fun A a out => (out, Ok a).
#[global] Instance io_bind : MBind io := fun A B f m out =>
  match m out with
  | (out', Ok a) => f a out'
  | (out', Raise e) => (out', Raise e)
  end.

Definition print (l : line) : io unit := fun out => (out ++ [l], Ok tt).
Definition eval {A : Type} (r : result A) : io A := fun out => (out, r).

(** [sorted(ds)] on dates. *)
Definition sorted (ds : list date) : list date :=
  merge_sort (fun a b => date_leb a b) ds.

(** [sum(xs)] on floats, as CPython up to 3.11 computes it: from [0],
    adding from left to right.  (From 3.12 on, [sum] carries a
    compensation term along, which can change the last bits of a sum of
    two or more floats; it returns [0] on the empty list all the same.) *)
Definition py_sum (xs : list float) : float := accumulate xs.

(** [min(ds)] and [max(ds)] on a list of dates. *)
Definition py_min_dates (ds : list date) : result date :=
  match ds with
  | [] => Raise (ValueError "min()")
  | d :: ds' => Ok (foldl (fun m x => if date_leb m x then m else x) d ds')
  end.

Definition py_max_dates (ds : list date) : result date :=
  match ds with
  | [] => Raise (ValueError "max()")
  | d :: ds' => Ok (foldl (fun m x => if date_leb x m then m else x) d ds')
  end.

(** [a / b]: division by a zero of either sign raises. *)
Definition py_div (a b : float) : result float :=
  if (b =? 0)%float then Raise ZeroDivisionError else Ok (a / b)%float.

(** [daily_stats[d]] for a key of the mapping. *)
Definition stats_of (daily_stats : gmap date day_stats) (d : date) : day_stats :=
  default default_factory (daily_stats !! d).

(** The part of [create_visualization] that computes and prints the
    summary; the charts are drawn by matplotlib and are not modelled.
    [data] and [durations] are parameters the source does not read. *)
Definition create_visualization (data : list Sample.t) (durations : list Interval.t)
    (daily_stats : gmap date day_stats) : io unit :=
  let days := sorted (elements (dom daily_stats)) in
  let standing_mins := map (fun d => standing (stats_of daily_stats d)) days in
  let sitting_mins := map (fun d => sitting (stats_of daily_stats d)) days in
  let total_standing := py_sum standing_mins in
  let total_sitting := py_sum sitting_mins in
  let total_time := (total_standing + total_sitting)%float in
  _ ← print Rule;
  _ ← print Title;
  _ ← print Rule;
  first ← eval (py_min_dates days);
  last ← eval (py_max_dates days);
  _ ← print (DateRange first last);
  _ ← print (TotalDays (len days));
  hours ← eval (py_div total_standing 60);
  _ ← print (TotalStanding total_standing hours);
  hours ← eval (py_div total_sitting 60);
  _ ← print (TotalSitting total_sitting hours);
  p ← eval (py_div (100 * total_standing) total_time);
  _ ← print (StandingPercentage p);
  p ← eval (py_div (100 * total_sitting) total_time);
  _ ← print (SittingPercentage p);
  _ ← print AveragePerDay;
  avg ← eval (py_div total_standing (float_of_Z (len days)));
  _ ← print (AverageStanding avg);
  avg ← eval (py_div total_sitting (float_of_Z (len days)));
  _ ← print (AverageSitting avg);
  print Rule.

(** ** Notions the properties are stated with *)

(** The pairs [(xs[i], xs[i+1])], in order. *)
Definition adjacent {A : Type} (xs : list A) : list (A * A) := zip xs (drop 1 xs).

(** The interval the loop body appends for a pair of one calendar date. *)
Definition interval_between (p : Sample.t * Sample.t) : Interval.t :=
  Interval.Make (Sample.timestamp p.1) (Sample.timestamp p.2)
    (py_min (elapsed_minutes p.1 p.2) 60)
    (Sample.is_standing p.1) (Sample.height p.1).

Definition same_day (p : Sample.t * Sample.t) : Prop :=
  date_of (Sample.timestamp p.1) = date_of (Sample.timestamp p.2).

#[global] Instance same_day_dec p : Decision (same_day p).
Proof. unfold same_day. apply _. Defined.

(** A float that is not NaN and whose sign bit is clear: [+0], a positive
    finite number or [+infinity]. *)
Definition SF_nonneg (x : spec_float) : bool :=
  match x with
  | S754_zero false | S754_infinity false | S754_finite false _ _ => true
  | _ => false
  end.

(** The Intervals that start on [day], and those in one state. *)
Definition on_day (day : date) (d : Interval.t) : Prop :=
  date_of (Interval.start d) = day.

#[global] Instance on_day_dec day d : Decision (on_day day d).
Proof. unfold on_day. apply _. Defined.

Definition in_state (b : bool) (d : Interval.t) : Prop :=
  Interval.is_standing d = b.

#[global] Instance in_state_dec b d : Decision (in_state b d).
Proof. unfold in_state. apply _. Defined.

(** The Intervals of one day in one state. *)
Definition in_class (day : date) (b : bool) (d : Interval.t) : Prop :=
  in_state b d /\ on_day day d.

#[global] Instance in_class_dec day b d : Decision (in_class day b d).
Proof. unfold in_class. apply _. Defined.

(** The durations of the Intervals of [es] in state [b], in order. *)
Definition durations_in_state (b : bool) (es : list Interval.t) : list float :=
  Interval.duration_min <$> filter (in_state b) es.

(** The value of [daily] after one more Interval of its day. *)
Definition fold_interval (d : Interval.t) (v : day_stats) : day_stats :=
  DayStats
    (if Interval.is_standing d then (standing v + Interval.duration_min d)%float
     else standing v)
    (if Interval.is_standing d then sitting v
     else (sitting v + Interval.duration_min d)%float)
    (entries v ++ [d]).

(** The value of [daily] for a day whose Intervals are [es], in order:
    each total is the left-to-right sum of the durations in its state. *)
Definition stats_of_entries (es : list Interval.t) : day_stats :=
  DayStats (accumulate (durations_in_state true es))
           (accumulate (durations_in_state false es)) es.

(** A row both of whose fields are present and parse. *)
Definition well_formed_row (parse_isoformat : string -> option datetime)
    (parse_int : string -> option Z) (row : gmap string (option string)) : Prop :=
  (exists s t, row !! "timestamp" = Some (Some s) /\ parse_isoformat s = Some t)
  /\ (exists s z, row !! "height_mm" = Some (Some s) /\ parse_int s = Some z).

(** The exceptions the loader's statements raise on a row: a missing
    column, a missing field, a field that does not parse.  They carry the
    column's name or the field's text, and no position. *)
Definition loader_exn (e : exn) : Prop :=
  match e with
  | KeyError key => key = "timestamp" \/ key = "height_mm"
  | TypeError => True
  | ValueError _ => True
  | _ => False
  end.

(** ** Parsers for the examples

    An instance of the loader's two parameters, on the strings the
    examples use: decimal integers [[+-]digits] between blanks, and
    date-times [YYYY-MM-DD?HH:MM:SS], [?] being any one character.  On
    these strings they return what [int] and [datetime.fromisoformat]
    return; on the other strings of the examples, which are no numbers and
    no dates, both sides reject. *)

Definition digit_of (c : ascii) : option Z :=
  let n := Z.of_nat (nat_of_ascii c) in
  if (48 <=? n) && (n <=? 57) then Some (n - 48) else None.

Fixpoint number_of (cs : list ascii) (acc : Z) : option Z :=
  match cs with
  | [] => Some acc
  | c :: cs' => d ← digit_of c; number_of cs' (10 * acc + d)
  end.

Definition digits (cs : list ascii) : option Z :=
  match cs with
  | [] => None
  | _ => number_of cs 0
  end.

Fixpoint lstrip (cs : list ascii) : list ascii :=
  match cs with
  | " "%char :: cs' => lstrip cs'
  | _ => cs
  end.

Definition strip (cs : list ascii) : list ascii :=
  reverse (lstrip (reverse (lstrip cs))).

Definition ref_parse_int (s : string) : option Z :=
  match strip (String.list_ascii_of_string s) with
  | "-"%char :: cs => Z.opp <$> digits cs
  | "+"%char :: cs => digits cs
  | cs => digits cs
  end.

Definition ref_parse_isoformat (s : string) : option datetime :=
  match String.list_ascii_of_string s with
  | [y1; y2; y3; y4; "-"; m1; m2; "-"; d1; d2; _; h1; h2; ":"; n1; n2; ":"; s1; s2]%char =>
      y ← digits [y1; y2; y3; y4];
      m ← digits [m1; m2];
      d ← digits [d1; d2];
      hh ← digits [h1; h2];
      mm ← digits [n1; n2];
      ss ← digits [s1; s2];
      let t := Datetime (Date y m d) hh mm ss 0 in
      if datetime_valid t then Some t else None
  | _ => None
  end.

(** The rational number a finite float stands for ([0] for the others). *)
Definition exact_value (x : float) : Q :=
  match Prim2SF x with
  | S754_finite s m e => (inject_Z (cond_Zopp s (Zpos m)) * Qpower 2 e)%Q
  | _ => 0%Q
  end.

(** The exact sum of the numbers the floats of [xs] stand for. *)
Definition exact_sum (xs : list float) : Q :=
  foldr (fun x q => (exact_value x + q)%Q) 0%Q xs.

(** ** Example inputs *)

(** A sample taken on 2024-03-[dd] at [hh:mm:ss], classified as the
    loader classifies it. *)
Definition sample_at (dd hh mm ss : Z) (height : Z) : Sample.t :=
  Sample.Make (Datetime (Date 2024 3 dd) hh mm ss 0) height
    (bool_decide (STANDING_THRESHOLD <= height)).

(** The scenario of the specification: samples at [T0], [T0 + 10 min] and
    [T0 + 70 min] of one day, at heights 850, 950 and 850. *)
Definition scenario : list Sample.t :=
  [sample_at 1 9 0 0 850; sample_at 1 9 10 0 950; sample_at 1 10 10 0 850].

(** The two Intervals the Deriver returns on [scenario]. *)
Definition scenario_intervals : list Interval.t :=
  [ Interval.Make (Datetime (Date 2024 3 1) 9 0 0 0) (Datetime (Date 2024 3 1) 9 10 0 0)
      10 false 850;
    Interval.Make (Datetime (Date 2024 3 1) 9 10 0 0) (Datetime (Date 2024 3 1) 10 10 0 0)
      60 true 950 ].

(** Four samples of one day, 18, 12 and 6 seconds apart: standing,
    sitting, standing.  The Intervals last 0.3, 0.2 and 0.1 minutes. *)
Definition mixed_samples : list Sample.t :=
  [sample_at 1 9 0 0 950; sample_at 1 9 0 18 700; sample_at 1 9 0 30 950;
   sample_at 1 9 0 36 700].

(** Four standing samples of one day, 6, 12 and 18 seconds apart.  The
    Intervals last 0.1, 0.2 and 0.3 minutes. *)
Definition standing_samples : list Sample.t :=
  [sample_at 1 9 0 0 950; sample_at 1 9 0 6 950; sample_at 1 9 0 18 950;
   sample_at 1 9 0 36 950].

(** Intervals of two days, and the same Intervals with the two days
    interleaved differently. *)
Definition two_days : list Interval.t :=
  [ Interval.Make (Datetime (Date 2024 3 1) 9 0 0 0) (Datetime (Date 2024 3 1) 9 0 6 0)
      0x1.999999999999ap-4 true 950;
    Interval.Make (Datetime (Date 2024 3 2) 9 0 0 0) (Datetime (Date 2024 3 2) 9 0 12 0)
      0x1.999999999999ap-3 true 950;
    Interval.Make (Datetime (Date 2024 3 1) 9 0 6 0) (Datetime (Date 2024 3 1) 9 0 24 0)
      0x1.3333333333333p-2 true 950 ].

Definition two_days_interleaved : list Interval.t :=
  match two_days with
  | [a; b; c] => [b; a; c]
  | l => l
  end.

(** A file of two well-formed rows, one at the threshold and one below. *)
Definition threshold_records : list (list string) :=
  [ ["timestamp"; "height_mm"];
    ["2024-03-01T09:00:00"; "900"];
    ["2024-03-01T09:10:00"; "899"] ].

(** A file whose second row has a height that is no integer. *)
Definition malformed_records : list (list string) :=
  [ ["timestamp"; "height_mm"];
    ["2024-03-01T09:00:00"; "850"];
    ["2024-03-01T09:10:00"; "tall"] ].

(** A file of two samples on different calendar dates. *)
Definition overnight_records : list (list string) :=
  [ ["timestamp"; "height_mm"];
    ["2024-03-01T17:00:00"; "850"];
    ["2024-03-02T08:00:00"; "950"] ].

(** Two samples on different calendar dates. *)
Definition overnight_samples : list Sample.t :=
  [sample_at 1 17 0 0 850; sample_at 2 8 0 0 950].

(** The file of [scenario]. *)
Definition scenario_records : list (list string) :=
  [ ["timestamp"; "height_mm"];
    ["2024-03-01T09:00:00"; "850"];
    ["2024-03-01T09:10:00"; "950"];
    ["2024-03-01T10:10:00"; "850"] ].

(** A float that is a number: any but NaN. *)
Definition SF_not_nan (x : spec_float) : bool :=
  match x with
  | S754_nan => false
  | _ => true
  end.

(** [a <= b] on naive date-times. *)
Definition datetime_leb (a b : datetime) : bool :=
  match datetime_compare a b with Gt => false | _ => true end.

(** One Interval of the day after [scenario]. *)
Definition next_day_intervals : list Interval.t :=
  [ Interval.Make (Datetime (Date 2024 3 2) 9 0 0 0) (Datetime (Date 2024 3 2) 9 30 0 0)
      30 true 950 ].

(** The names [create_visualization] gives to what it computes first:
    the dates of the mapping in increasing order, and the two totals. *)
Definition days_of (daily_stats : gmap date day_stats) : list date :=
  sorted (elements (dom daily_stats)).

Definition total_standing_of (daily_stats : gmap date day_stats) : float :=
  py_sum (map (fun d => standing (stats_of daily_stats d)) (days_of daily_stats)).

Definition total_sitting_of (daily_stats : gmap date day_stats) : float :=
  py_sum (map (fun d => sitting (stats_of daily_stats d)) (days_of daily_stats)).

(** The lines the summary prints up to the two totals. *)
Definition report_totals (first last : date) (n : Z) (ts ss : float) : list line :=
  [ Rule; Title; Rule; DateRange first last; TotalDays n;
    TotalStanding ts (ts / 60); TotalSitting ss (ss / 60) ].

(** The lines of a complete summary. *)
Definition report (first last : date) (n : Z) (ts ss : float) : list line :=
  report_totals first last n ts ss
  ++ [ StandingPercentage (100 * ts / (ts + ss));
       SittingPercentage (100 * ss / (ts + ss));
       AveragePerDay;
       AverageStanding (ts / float_of_Z n);
       AverageSitting (ss / float_of_Z n);
       Rule ].

(** Two samples with one timestamp: an Interval of no duration. *)
Definition stalled_samples : list Sample.t :=
  [sample_at 1 9 0 0 850; sample_at 1 9 0 0 950].

Definition stalled_intervals : list Interval.t :=
  [ Interval.Make (Datetime (Date 2024 3 1) 9 0 0 0) (Datetime (Date 2024 3 1) 9 0 0 0)
      0 false 850 ].

(** ** Reporter: the timeline of [create_visualization] *)

(** The two colours, [standing_color] (green) and [sitting_color] (red). *)
Inductive color : Type := standing_color | sitting_color.

(** One call [ax2.barh(idx, duration_hours, left=start_hour, color=color,
    ...)]; the other arguments are constants. *)
Record barh_call : Type := Barh {
  barh_y : nat;
  barh_width : float;
  barh_left : float;
  barh_color : color
}.

(** The body of the inner loop of the timeline, for the entry [entry] of
    the day of index [idx]. *)
Definition timeline_bar (idx : nat) (entry : Interval.t) : barh_call :=
  let start_hour :=
    (float_of_Z (hour (Interval.start entry))
     + float_of_Z (minute (Interval.start entry)) / 60)%float in
  let duration_hours := (Interval.duration_min entry / 60)%float in
  let color := if Interval.is_standing entry then standing_color else sitting_color in
  Barh idx duration_hours start_hour color.

(** The calls of [barh] the two loops of the timeline make, in order:
    [for idx, day in enumerate(days): for entry in daily_stats[day]["entries"]]. *)
Definition timeline (daily_stats : gmap date day_stats) : list barh_call :=
  let days := sorted (elements (dom daily_stats)) in
  concat (imap (fun idx day => timeline_bar idx <$> entries (stats_of daily_stats day)) days).

(** [a < b] on dates. *)
Definition date_ltb (a b : date) : bool :=
  match date_compare a b with Lt => true | _ => false end.

(** ** [main] *)

(** What a run of [main] does to the outside, one constructor per call:
    the two kinds of output, the image file and the window. *)
Inductive event : Type :=
  | StderrNotFound (csv_path : string)   (* print("Error: File not found: ...", file=sys.stderr) *)
  | Loading (csv_path : string)          (* print("Loading data from ...") *)
  | Loaded (n : Z)                       (* print("Loaded ... records") *)
  | Summary (l : line)                   (* a line of the summary *)
  | Savefig (output_file : string)       (* fig.savefig(output_file, ...) *)
  | Saved (output_file : string)         (* print("Visualization saved to ...") *)
  | Show.                                (* plt.show() *)

(** How a run ends: [main] returns, [sys.exit(status)] is called, or an
    exception escapes. *)
Inductive outcome : Type :=
  | Returned
  | Exit (status : Z)
  | Uncaught (e : exn).

Section Main.
Variable parse_isoformat : string -> option datetime.
Variable parse_int : string -> option Z.
(** The files: the records the [csv] reader yields for the file at a
    path, [None] where [csv_path.exists()] is false. *)
Variable files : string -> option (list (list string)).
(** [Path(p).stem]. *)
Variable stem : string -> string.

(** [main] on the path [args.csv_file].  The drawing calls of
    [create_visualization] are not modelled. *)
Definition main (csv_file : string) : list event * outcome :=
  match files csv_file with
  | None => ([StderrNotFound csv_file], Exit 1)
  | Some records =>
      let events := [Loading csv_file] in
      match load_data parse_isoformat parse_int records with
      | Raise e => (events, Uncaught e)
      | Ok data =>
          let events := events ++ [Loaded (len data)] in
          match calculate_durations data with
          | Raise e => (events, Uncaught e)
          | Ok durations =>
              let daily_stats := aggregate_by_day durations in
              let '(printed, fig) := create_visualization data durations daily_stats [] in
              let events := events ++ (Summary <$> printed) in
              match fig with
              | Raise e => (events, Uncaught e)
              | Ok _ =>
                  let output_file := String.append (stem csv_file) "_visualization.png" in
                  (events ++ [Savefig output_file; Saved output_file; Show], Returned)
              end
          end
      end
  end.
(** The runs of [main], stage by stage. *)
Inductive main_run (csv_file : string) : list event -> outcome -> Prop :=
  | run_not_found :
      files csv_file = None ->
      main_run csv_file [StderrNotFound csv_file] (Exit 1)
  | run_load_raises records e :
      files csv_file = Some records ->
      load_data parse_isoformat parse_int records = Raise e ->
      main_run csv_file [Loading csv_file] (Uncaught e)
  | run_summary_raises records data printed e :
      files csv_file = Some records ->
      load_data parse_isoformat parse_int records = Ok data ->
      create_visualization data (interval_between <$> filter same_day (adjacent data))
        (aggregate_by_day (interval_between <$> filter same_day (adjacent data))) []
      = (printed, Raise e) ->
      main_run csv_file
        ([Loading csv_file; Loaded (len data)] ++ (Summary <$> printed)) (Uncaught e)
  | run_returns records data printed u :
      files csv_file = Some records ->
      load_data parse_isoformat parse_int records = Ok data ->
      create_visualization data (interval_between <$> filter same_day (adjacent data))
        (aggregate_by_day (interval_between <$> filter same_day (adjacent data))) []
      = (printed, Ok u) ->
      main_run csv_file
        ([Loading csv_file; Loaded (len data)] ++ (Summary <$> printed)
         ++ [ Savefig (String.append (stem csv_file) "_visualization.png");
              Saved (String.append (stem csv_file) "_visualization.png"); Show ])
        Returned.
End Main.

(** The files of the examples, and the stem of their paths (which have
    no directory part and end in [.csv]). *)
Definition example_files (path : string) : option (list (list string)) :=
  if String.eqb path "desk.csv" then Some scenario_records
  else if String.eqb path "overnight.csv" then Some overnight_records
  else if String.eqb path "broken.csv" then Some malformed_records
  else None.

Definition example_stem (path : string) : string :=
  String.substring 0 (String.length path - 4) path.

(** A file with one more column than [threshold_records]. *)
Definition threshold_records_with_note : list (list string) :=
  [ ["timestamp"; "height_mm"; "note"];
    ["2024-03-01T09:00:00"; "900"; "morning"];
    ["2024-03-01T09:10:00"; "899"; ""] ].

(** The sample a row describes: its fields parse to the sample's
    timestamp and height, and the sample is classified by its height. *)
Definition sample_of_row (parse_isoformat : string -> option datetime)
    (parse_int : string -> option Z) (row : gmap string (option string))
    (s : Sample.t) : Prop :=
  (exists ts, row !! "timestamp" = Some (Some ts)
              /\ parse_isoformat ts = Some (Sample.timestamp s))
  /\ (exists h, row !! "height_mm" = Some (Some h)
                /\ parse_int h = Some (Sample.height s))
  /\ Sample.is_standing s = bool_decide (STANDING_THRESHOLD <= Sample.height s).

(** * Properties *)

(** ** Facts about the loops *)

Lemma for_in_app {A S : Type} (xs ys : list A) (body : S -> A -> result S) (s : S) :
  for_in (xs ++ ys) body s = s' ← for_in xs body s; for_in ys body s'.
Proof.
  revert s. induction xs as [|x xs IH]; intros s; simpl; [done|].
  destruct (body s x) as [s'|e]; simpl; [apply IH | done].
Qed.

Lemma adjacent_length {A : Type} (xs : list A) :
  length (adjacent xs) = (length xs - 1)%nat.
Proof. unfold adjacent. rewrite length_zip, length_drop. lia. Qed.

Lemma adjacent_lookup {A : Type} (xs : list A) (i : nat) (p : A * A) :
  adjacent xs !! i = Some p <-> xs !! i = Some p.1 /\ xs !! (i + 1)%nat = Some p.2.
Proof.
  unfold adjacent. destruct p as [a b]. simpl.
  rewrite lookup_zip_with_Some. rewrite Nat.add_comm.
  split.
  - intros (x & y & [= -> ->] & Hx & Hy). by rewrite lookup_drop in Hy.
  - intros [Hx Hy]. exists a, b. by rewrite lookup_drop.
Qed.

Lemma calculate_durations_prefix (data : list Sample.t) (n : nat) :
  (n <= length data - 1)%nat ->
  for_in (seq 0 n) (calculate_durations_body data) []
  = Ok (interval_between <$> filter same_day (take n (adjacent data))).
Proof.
  induction n as [|n IH]; intros Hn; [reflexivity|].
  rewrite seq_S, for_in_app, IH by lia. simpl.
  destruct (lookup_lt_is_Some_2 (adjacent data) n) as [[cur nxt] Hp].
  { rewrite adjacent_length. lia. }
  pose proof Hp as [Hc Hx]%adjacent_lookup. simpl in Hc, Hx.
  rewrite (take_S_r _ _ _ Hp), filter_app, fmap_app.
  unfold calculate_durations_body, getitem. rewrite Hc, Hx. simpl.
  rewrite filter_cons, filter_nil.
  destruct (decide (date_of (Sample.timestamp cur) = date_of (Sample.timestamp nxt)))
    as [Hd|Hd]; simpl.
  - by rewrite (decide_True (P := same_day (cur, nxt))).
  - rewrite (decide_False (P := same_day (cur, nxt))) by done.
    by rewrite app_nil_r.
Qed.

Lemma calculate_durations_eq (data : list Sample.t) :
  calculate_durations data = Ok (interval_between <$> filter same_day (adjacent data)).
Proof.
  unfold calculate_durations, py_range, len.
  replace (Z.to_nat (Z.of_nat (length data) - 1)) with (length data - 1)%nat by lia.
  rewrite calculate_durations_prefix by lia.
  by rewrite <- adjacent_length, firstn_all.
Qed.

(** ** The sign of a rounded quotient

    The specification of binary64 arithmetic ([SpecFloat]) rounds a
    non-negative mantissa to a result whose sign is the one asked for, so
    the quotient of a non-negative float by a positive finite one is a
    non-negative float. *)

Section FloatSign.
Local Open Scope Z_scope.

Lemma shr_1_nonneg mrs : 0 <= shr_m mrs -> 0 <= shr_m (shr_1 mrs).
Proof. destruct mrs as [[|[p|p|]|p] r s]; simpl; lia. Qed.

Lemma iter_pos_shr_1_nonneg p : forall mrs,
  0 <= shr_m mrs -> 0 <= shr_m (SpecFloat.iter_pos shr_1 p mrs).
Proof.
  induction p as [p IH|p IH|]; intros mrs H; simpl.
  - by apply IH, IH, shr_1_nonneg.
  - by apply IH, IH.
  - by apply shr_1_nonneg.
Qed.

Lemma shr_nonneg mrs e n : 0 <= shr_m mrs -> 0 <= shr_m (shr mrs e n).1.
Proof.
  intros H. destruct n as [|p|p]; simpl; [done| |done].
  by apply iter_pos_shr_1_nonneg.
Qed.

Lemma shr_fexp_nonneg m e l : 0 <= m -> 0 <= shr_m (shr_fexp prec emax m e l).1.
Proof.
  intros H. unfold shr_fexp. apply shr_nonneg.
  by destruct l as [|[]].
Qed.

Lemma round_nearest_even_nonneg m l : 0 <= m -> 0 <= round_nearest_even m l.
Proof.
  intros H. destruct l as [|[]]; simpl; try lia.
  destruct (Z.even m); lia.
Qed.

Lemma binary_round_aux_nonneg mx ex lx :
  0 <= mx -> SF_nonneg (binary_round_aux prec emax false mx ex lx) = true.
Proof.
  intros H. unfold binary_round_aux.
  pose proof (shr_fexp_nonneg mx ex lx H) as H1.
  destruct (shr_fexp prec emax mx ex lx) as [mrs' e']. simpl in H1.
  pose proof (shr_fexp_nonneg _ e' loc_Exact
                (round_nearest_even_nonneg _ (loc_of_shr_record mrs') H1)) as H2.
  destruct (shr_fexp prec emax _ e' loc_Exact) as [mrs'' e'']. simpl in H2.
  destruct (shr_m mrs'') as [|m|m]; [done| |lia].
  by destruct (e'' <=? emax - prec).
Qed.

Lemma SFdiv_nonneg x my ey :
  SF_nonneg x = true ->
  SF_nonneg (SFdiv prec emax x (S754_finite false my ey)) = true.
Proof.
  destruct x as [[]|[]| |[] mx ex]; simpl; try done. intros _.
  unfold SFdiv_core_binary.
  set (s := _ - _ - Z.min _ _).
  set (m' := match s with Z0 => _ | Zpos _ => _ | Zneg _ => _ end).
  assert (0 <= m') as Hm'.
  { subst m'. destruct s; [lia| |lia]. apply Z.shiftl_nonneg. lia. }
  pose proof (Z.div_pos m' (Zpos my) Hm' ltac:(lia)) as Hq.
  unfold Z.div in Hq. destruct (Z.div_eucl m' (Zpos my)) as [q r]. simpl in Hq.
  by apply binary_round_aux_nonneg.
Qed.

Lemma of_uint63_nonneg n : SF_nonneg (Prim2SF (of_uint63 n)) = true.
Proof.
  rewrite FloatAxioms.of_uint63_spec.
  pose proof (Uint63.to_Z_bounded n) as [Hn _].
  destruct (Uint63.to_Z n) as [|m|m]; simpl; [done| |lia].
  unfold binary_round. destruct (shl_align _ _ _) as [mz ez].
  by apply binary_round_aux_nonneg.
Qed.

Lemma leb_0_nonneg (x : float) :
  SF_nonneg (Prim2SF x) = true -> (0 <=? x)%float = true.
Proof.
  rewrite FloatAxioms.leb_spec. change (Prim2SF 0) with (S754_zero false).
  by destruct (Prim2SF x) as [[]|[]| |[] m e].
Qed.

Lemma div_nonneg (x y : float) my ey :
  Prim2SF y = S754_finite false my ey ->
  SF_nonneg (Prim2SF x) = true -> SF_nonneg (Prim2SF (x / y)) = true.
Proof.
  intros Hy Hx. rewrite FloatAxioms.div_spec, Hy. by apply SFdiv_nonneg.
Qed.
End FloatSign.



(** ** Differences of date-times of one day *)

Lemma date_compare_refl (d : date) : date_compare d d = Eq.
Proof. unfold date_compare. by rewrite !Z.compare_refl. Qed.

Lemma datetime_sub_same_day (a b : datetime) :
  date_of a = date_of b ->
  datetime_sub b a
  = (seconds_of_day b - seconds_of_day a) * 1000000 + (microsecond b - microsecond a).
Proof. intros H. unfold datetime_sub. rewrite H. lia. Qed.

Lemma datetime_valid_fields (t : datetime) :
  datetime_valid t = true ->
  0 <= hour t < 24 /\ 0 <= minute t < 60 /\ 0 <= second t < 60
  /\ 0 <= microsecond t < 1000000.
Proof. unfold datetime_valid. rewrite !andb_true_iff. lia. Qed.


(** ** Duration Deriver *)

(** The scenario of the specification: a sitting interval of 10 minutes,
    then a standing one of 70 minutes capped at 60. *)
Example calculate_durations_scenario :
  calculate_durations scenario
  = Ok [ Interval.Make (Datetime (Date 2024 3 1) 9 0 0 0) (Datetime (Date 2024 3 1) 9 10 0 0)
           10 false 850;
         Interval.Make (Datetime (Date 2024 3 1) 9 10 0 0) (Datetime (Date 2024 3 1) 10 10 0 0)
           60 true 950 ].
Proof. vm_compute. reflexivity. Qed.



(** C2. Every Interval the Duration Deriver returns, for any sample
    sequence, starts and ends on one calendar date. *)
Theorem C2_interval_within_one_day (data : list Sample.t) :
  exists durations : list Interval.t,
    calculate_durations data = Ok durations
    /\ Forall (fun d => date_of (Interval.start d) = date_of (Interval.end_ d)) durations.
Proof.
  eexists. split; [apply calculate_durations_eq|].
  rewrite Forall_fmap. apply Forall_forall.
  by intros [cur nxt] [Hday _]%list_elem_of_filter.
Qed.

(** C8. On [n] samples the Duration Deriver returns at most [n - 1]
    Intervals (the subtraction is the one of natural numbers, so the bound
    is 0 on the empty input); on the empty input and on a single sample it
    returns the empty list, and it raises on no input. *)
Theorem C8_at_most_n_minus_1 :
  (forall data : list Sample.t,
     exists durations : list Interval.t,
       calculate_durations data = Ok durations
       /\ (length durations <= length data - 1)%nat)
  /\ calculate_durations [] = Ok []
  /\ (forall s : Sample.t, calculate_durations [s] = Ok []).
Proof.
  split; [|split].
  - intros data. eexists. split; [apply calculate_durations_eq|].
    rewrite length_fmap, <- adjacent_length. apply length_filter.
  - reflexivity.
  - intros s. reflexivity.
Qed.

(** ** Daily Aggregator *)

Lemma aggregate_by_day_body_eq (daily : gmap date day_stats) (d : Interval.t) :
  aggregate_by_day_body daily d
  = <[date_of (Interval.start d) :=
        fold_interval d (default default_factory (daily !! date_of (Interval.start d)))]>
      daily.
Proof.
  unfold aggregate_by_day_body, defaultdict_getitem, fold_interval.
  destruct (daily !! date_of (Interval.start d)) as [v|] eqn:Hv;
    destruct (Interval.is_standing d); simpl;
    rewrite ?lookup_insert_eq, ?insert_insert_eq; reflexivity.
Qed.

Lemma accumulate_snoc (xs : list float) (x : float) :
  accumulate (xs ++ [x]) = (accumulate xs + x)%float.
Proof. unfold accumulate. by rewrite foldl_snoc. Qed.

Lemma durations_in_state_snoc (b : bool) (es : list Interval.t) (d : Interval.t) :
  durations_in_state b (es ++ [d])
  = durations_in_state b es
    ++ (if decide (in_state b d) then [Interval.duration_min d] else []).
Proof.
  unfold durations_in_state. rewrite filter_app, fmap_app, filter_cons, filter_nil.
  by destruct (decide (in_state b d)).
Qed.

Lemma fold_interval_stats (d : Interval.t) (es : list Interval.t) :
  fold_interval d (stats_of_entries es) = stats_of_entries (es ++ [d]).
Proof.
  unfold fold_interval, stats_of_entries. simpl.
  rewrite !durations_in_state_snoc.
  destruct (Interval.is_standing d) eqn:Hs.
  - rewrite (decide_True (P := in_state true d)) by done.
    rewrite (decide_False (P := in_state false d)) by (unfold in_state; congruence).
    by rewrite accumulate_snoc, app_nil_r.
  - rewrite (decide_False (P := in_state true d)) by (unfold in_state; congruence).
    rewrite (decide_True (P := in_state false d)) by done.
    by rewrite accumulate_snoc, app_nil_r.
Qed.

(** What the aggregate holds for each date. *)
Lemma aggregate_by_day_lookup (durations : list Interval.t) (day : date) :
  aggregate_by_day durations !! day
  = match filter (on_day day) durations with
    | [] => None
    | es => Some (stats_of_entries es)
    end.
Proof.
  induction durations as [|d ds IH] using rev_ind; [done|].
  assert (default default_factory (aggregate_by_day ds !! day)
          = stats_of_entries (filter (on_day day) ds)) as Hdef.
  { rewrite IH. by destruct (filter (on_day day) ds). }
  unfold aggregate_by_day in *. rewrite foldl_snoc, aggregate_by_day_body_eq.
  rewrite filter_app, filter_cons, filter_nil.
  destruct (decide (on_day day d)) as [Hd|Hd].
  - unfold on_day in Hd. rewrite Hd, lookup_insert_eq, Hdef, fold_interval_stats.
    by destruct (filter (on_day day) ds).
  - rewrite lookup_insert_ne by (intros ?; by apply Hd).
    by rewrite app_nil_r.
Qed.

Lemma aggregate_by_day_is_Some (durations : list Interval.t) (day : date) :
  is_Some (aggregate_by_day durations !! day)
  <-> exists d, d ∈ durations /\ on_day day d.
Proof.
  rewrite aggregate_by_day_lookup. split.
  - intros Hsome. destruct (filter (on_day day) durations) as [|d es] eqn:Hes.
    + by destruct Hsome.
    + assert (d ∈ filter (on_day day) durations) as [Hd Hin]%list_elem_of_filter
        by (rewrite Hes; left).
      by exists d.
  - intros (d & Hin & Hd).
    assert (d ∈ filter (on_day day) durations) as Hf by by apply list_elem_of_filter.
    destruct (filter _ durations); [by apply elem_of_nil in Hf | done].
Qed.

(** C9. The key set of the mapping the Daily Aggregator returns is
    exactly the set of the calendar dates on which some Interval of the
    sequence starts. *)
Theorem C9_keys_are_start_dates (durations : list Interval.t) :
  dom (aggregate_by_day durations)
  = list_to_set ((fun d => date_of (Interval.start d)) <$> durations).
Proof.
  apply set_eq. intros day.
  rewrite elem_of_dom, aggregate_by_day_is_Some, elem_of_list_to_set, list_elem_of_fmap.
  unfold on_day. split.
  - intros (d & Hin & <-). by exists d.
  - intros (d & -> & Hin). by exists d.
Qed.

Lemma filter_in_class (day : date) (b : bool) (l : list Interval.t) :
  filter (in_class day b) l = filter (in_state b) (filter (on_day day) l).
Proof.
  induction l as [|d l IH]; [done|].
  rewrite !filter_cons, IH.
  destruct (decide (on_day day d)) as [Hd|Hd].
  - rewrite filter_cons.
    destruct (decide (in_state b d)) as [Hs|Hs].
    + by rewrite decide_True by done.
    + rewrite decide_False; [done|]. by intros [? _].
  - rewrite decide_False; [done|]. by intros [_ ?].
Qed.

(** The totals of a day, read off the sequence: the durations of the
    day's Intervals in each state, summed from left to right. *)
Lemma aggregate_by_day_totals (durations : list Interval.t) (day : date) (st : day_stats) :
  aggregate_by_day durations !! day = Some st ->
  entries st = filter (on_day day) durations
  /\ standing st = accumulate (Interval.duration_min <$> filter (in_class day true) durations)
  /\ sitting st = accumulate (Interval.duration_min <$> filter (in_class day false) durations).
Proof.
  rewrite aggregate_by_day_lookup, !filter_in_class.
  destruct (filter (on_day day) durations) as [|d es]; [done|].
  by intros [= <-].
Qed.


(** C10 (amended). For every date of the aggregate, the interval list is
    exactly the subsequence of the input Intervals that start on that
    date, in input order; [standing_minutes] is the sum, from 0 and from
    left to right, of the durations of its standing Intervals, and
    [sitting_minutes] that of its sitting Intervals. *)
Theorem C10_day_entries_and_totals
    (durations : list Interval.t) (day : date) (st : day_stats) :
  aggregate_by_day durations !! day = Some st ->
  entries st = filter (on_day day) durations
  /\ standing st = accumulate (durations_in_state true (entries st))
  /\ sitting st = accumulate (durations_in_state false (entries st)).
Proof.
  rewrite aggregate_by_day_lookup.
  destruct (filter (on_day day) durations) as [|d es]; [done|].
  by intros [= <-].
Qed.

Lemma C10_witness :
  exists st : day_stats,
    aggregate_by_day scenario_intervals !! Date 2024 3 1 = Some st
    /\ entries st = filter (on_day (Date 2024 3 1)) scenario_intervals
    /\ standing st = accumulate (durations_in_state true (entries st))
    /\ sitting st = accumulate (durations_in_state false (entries st)).
Proof.
  exists (DayStats 60 10 scenario_intervals).
  assert (aggregate_by_day scenario_intervals !! Date 2024 3 1
          = Some (DayStats 60 10 scenario_intervals)) as H by (vm_compute; reflexivity).
  split; [exact H|].
  exact (C10_day_entries_and_totals scenario_intervals (Date 2024 3 1) _ H).
Defined.

(** C10, as stated, fails in binary64: on [mixed_samples] the day holds
    standing = 0.3 + 0.1 and sitting = 0.2, whose sum is
    0.6000000000000001, while the durations 0.3, 0.2, 0.1 of its list sum
    to 0.6.  The exact sum of the two totals differs from the exact sum of
    the durations as well, the standing total being a rounded sum. *)
Lemma C10_counterexample :
  exists (durations : list Interval.t) (st : day_stats),
    calculate_durations mixed_samples = Ok durations
    /\ aggregate_by_day durations !! Date 2024 3 1 = Some st
    /\ (standing st + sitting st)%float = 0x1.3333333333334p-1%float
    /\ accumulate (Interval.duration_min <$> entries st) = 0x1.3333333333333p-1%float
    /\ (standing st + sitting st =? accumulate (Interval.duration_min <$> entries st))%float
       = false
    /\ Qeq_bool (exact_value (standing st) + exact_value (sitting st))
                (exact_sum (Interval.duration_min <$> entries st)) = false.
Proof.
  eexists _, _. split; [vm_compute; reflexivity|].
  split; [vm_compute; reflexivity|].
  repeat split; vm_compute; reflexivity.
Qed.

(** C6 (amended). Folding a permutation of an Interval sequence yields
    the same set of dates and, for every date, the same Intervals up to
    their order; and for every date whose standing Intervals and whose
    sitting Intervals the permutation leaves in their relative order, it
    yields the same [standing_minutes] and the same [sitting_minutes].
    (How Intervals of different dates, or of different states, are
    interleaved is immaterial; the order of the Intervals of one date and
    state is the order in which their durations are added.) *)
Theorem C6_order_independent_across_classes (l l' : list Interval.t) :
  l ≡ₚ l' ->
  dom (aggregate_by_day l) = dom (aggregate_by_day l')
  /\ forall day : date,
       (forall st st' : day_stats,
          aggregate_by_day l !! day = Some st ->
          aggregate_by_day l' !! day = Some st' ->
          entries st ≡ₚ entries st')
       /\ ((forall b : bool, filter (in_class day b) l = filter (in_class day b) l') ->
           standing <$> aggregate_by_day l !! day = standing <$> aggregate_by_day l' !! day
           /\ sitting <$> aggregate_by_day l !! day
              = sitting <$> aggregate_by_day l' !! day).
Proof.
  intros Hperm.
  assert (forall day, is_Some (aggregate_by_day l !! day)
                      <-> is_Some (aggregate_by_day l' !! day)) as Hsome.
  { intros day. rewrite !aggregate_by_day_is_Some.
    by setoid_rewrite Hperm. }
  split; [|intros day; split].
  - apply set_eq. intros day. by rewrite !elem_of_dom.
  - intros st st' (-> & _)%aggregate_by_day_totals (-> & _)%aggregate_by_day_totals.
    by rewrite Hperm.
  - intros Hclass. specialize (Hsome day).
    destruct (aggregate_by_day l !! day) as [st|] eqn:Hl;
      destruct (aggregate_by_day l' !! day) as [st'|] eqn:Hl'; simpl.
    + apply aggregate_by_day_totals in Hl as (_ & -> & ->).
      apply aggregate_by_day_totals in Hl' as (_ & -> & ->).
      by rewrite !Hclass.
    + destruct Hsome as [Hsome _]. by destruct Hsome.
    + destruct Hsome as [_ Hsome]. by destruct Hsome.
    + done.
Qed.

Lemma C6_witness :
  dom (aggregate_by_day two_days) = dom (aggregate_by_day two_days_interleaved)
  /\ standing <$> aggregate_by_day two_days !! Date 2024 3 1
     = standing <$> aggregate_by_day two_days_interleaved !! Date 2024 3 1
  /\ sitting <$> aggregate_by_day two_days !! Date 2024 3 1
     = sitting <$> aggregate_by_day two_days_interleaved !! Date 2024 3 1.
Proof.
  destruct (C6_order_independent_across_classes two_days two_days_interleaved)
    as [Hdom Hday].
  { apply perm_swap. }
  split; [exact Hdom|].
  apply (Hday (Date 2024 3 1)). intros []; reflexivity.
Defined.

(** C6, as stated, fails in binary64: the three standing Intervals of
    [standing_samples] last 0.1, 0.2 and 0.3 minutes; folded in that order
    they give 0.6000000000000001 standing minutes, folded in the reverse
    order 0.6. *)
Lemma C6_counterexample :
  exists (l : list Interval.t) (st st' : day_stats),
    calculate_durations standing_samples = Ok l
    /\ l ≡ₚ reverse l
    /\ aggregate_by_day l !! Date 2024 3 1 = Some st
    /\ aggregate_by_day (reverse l) !! Date 2024 3 1 = Some st'
    /\ standing st = 0x1.3333333333334p-1%float
    /\ standing st' = 0x1.3333333333333p-1%float
    /\ (standing st =? standing st')%float = false.
Proof.
  eexists _, _, _. split; [vm_compute; reflexivity|].
  split; [symmetry; apply reverse_Permutation|].
  split; [vm_compute; reflexivity|].
  split; [vm_compute; reflexivity|].
  repeat split; vm_compute; reflexivity.
Qed.

(** ** Loader *)

Section LoaderFacts.
Variable parse_isoformat : string -> option datetime.
Variable parse_int : string -> option Z.

Local Abbreviation body := (load_data_body parse_isoformat parse_int).

(** A row on which the body of the loop returns is well formed, and the
    body appends the one sample the row describes. *)
Lemma load_data_body_Ok (data data' : list Sample.t) (row : gmap string (option string)) :
  body data row = Ok data' ->
  well_formed_row parse_isoformat parse_int row
  /\ exists (t : datetime) (h : Z),
       data' = data ++ [Sample.Make t h (bool_decide (STANDING_THRESHOLD <= h))].
Proof.
  unfold load_data_body, dict_getitem, fromisoformat, int, well_formed_row.
  destruct (row !! "timestamp") as [[s|]|] eqn:Hts; simpl; try done.
  destruct (parse_isoformat s) as [t|] eqn:Ht; simpl; try done.
  destruct (row !! "height_mm") as [[s'|]|] eqn:Hh; simpl; try done.
  destruct (parse_int s') as [z|] eqn:Hz; simpl; try done.
  intros [= <-]. split; [split|]; eauto.
Qed.

(** On a well-formed row the body returns. *)
Lemma load_data_body_well_formed (data : list Sample.t) (row : gmap string (option string)) :
  well_formed_row parse_isoformat parse_int row ->
  exists data', body data row = Ok data'.
Proof.
  intros [(s & t & Hs & Ht) (s' & z & Hs' & Hz)].
  unfold load_data_body, dict_getitem, fromisoformat, int.
  rewrite Hs. simpl. rewrite Ht. simpl. rewrite Hs'. simpl. rewrite Hz. simpl. eauto.
Qed.

(** What the body raises is a built-in exception of the row's fields. *)
Lemma load_data_body_Raise (data : list Sample.t) (row : gmap string (option string)) (e : exn) :
  body data row = Raise e -> loader_exn e.
Proof.
  unfold load_data_body, dict_getitem, fromisoformat, int.
  destruct (row !! "timestamp") as [[s|]|]; simpl; [| by intros [= <-] | by intros [= <-]; left].
  destruct (parse_isoformat s) as [t|]; simpl; [| by intros [= <-]].
  destruct (row !! "height_mm") as [[s'|]|]; simpl; [| by intros [= <-] | by intros [= <-]; right].
  destruct (parse_int s') as [z|]; simpl; [done | by intros [= <-]].
Qed.

Lemma load_data_loop_classified (rows : list (gmap string (option string))) :
  forall acc data : list Sample.t,
    Forall (fun s => Sample.is_standing s = true <-> 900 <= Sample.height s) acc ->
    for_in rows body acc = Ok data ->
    Forall (fun s => Sample.is_standing s = true <-> 900 <= Sample.height s) data.
Proof.
  induction rows as [|row rows IH]; intros acc data Hacc; simpl.
  - by intros [= <-].
  - destruct (body acc row) as [acc'|e] eqn:Hbody; simpl; [|done].
    apply IH. apply load_data_body_Ok in Hbody as (_ & t & h & ->).
    apply Forall_app. split; [done|]. constructor; [|constructor]. simpl.
    unfold STANDING_THRESHOLD. apply bool_decide_eq_true.
Qed.

Lemma load_data_loop_malformed (rows : list (gmap string (option string))) :
  forall acc : list Sample.t,
    Exists (fun row => ~ well_formed_row parse_isoformat parse_int row) rows ->
    exists e, for_in rows body acc = Raise e /\ loader_exn e.
Proof.
  induction rows as [|row rows IH]; intros acc Hex; [by apply Exists_nil in Hex|].
  simpl. destruct (body acc row) as [acc'|e] eqn:Hbody; simpl.
  - apply IH. apply Exists_cons in Hex as [Hbad|Hex]; [|done].
    by apply load_data_body_Ok in Hbody as [Hwf _].
  - exists e. split; [done|]. by eapply load_data_body_Raise.
Qed.
End LoaderFacts.

(** C5. Every sample the Loader returns is standing if and only if its
    height is at least 900 millimetres; a height of exactly 900 is
    standing. *)
Theorem C5_standing_iff_at_least_900 (parse_isoformat : string -> option datetime)
    (parse_int : string -> option Z) (records : list (list string))
    (data : list Sample.t) :
  load_data parse_isoformat parse_int records = Ok data ->
  Forall (fun s => (Sample.is_standing s = true <-> 900 <= Sample.height s)
                   /\ (Sample.height s = 900 -> Sample.is_standing s = true)) data.
Proof.
  intros Hload.
  eapply Forall_impl; [by eapply load_data_loop_classified; [constructor|exact Hload]|].
  intros s Hs. split; [done|]. intros H900. apply Hs. lia.
Qed.

Lemma C5_witness :
  Forall (fun s => (Sample.is_standing s = true <-> 900 <= Sample.height s)
                   /\ (Sample.height s = 900 -> Sample.is_standing s = true))
         [sample_at 1 9 0 0 900; sample_at 1 9 10 0 899].
Proof.
  apply (C5_standing_iff_at_least_900 ref_parse_isoformat ref_parse_int threshold_records).
  vm_compute. reflexivity.
Defined.

(** C4 (amended). When some row of the file has a timestamp field or a
    height field that is missing or does not parse, the Loader fails the
    whole load and returns no sample sequence.  What it raises is the
    built-in [KeyError], [TypeError] or [ValueError] of the statement that
    read the field; it carries the column name or the field's text, and
    nothing about the row's position. *)
Theorem C4_malformed_row_aborts_load (parse_isoformat : string -> option datetime)
    (parse_int : string -> option Z) (records : list (list string)) :
  Exists (fun row => ~ well_formed_row parse_isoformat parse_int row) (DictReader records) ->
  exists e : exn,
    load_data parse_isoformat parse_int records = Raise e
    /\ loader_exn e
    /\ (forall position, e <> MalformedRecordError position)
    /\ (forall data, load_data parse_isoformat parse_int records <> Ok data).
Proof.
  intros Hex.
  destruct (load_data_loop_malformed parse_isoformat parse_int _ [] Hex) as (e & Hrun & He).
  exists e. unfold load_data. rewrite Hrun. repeat split; [done| |done].
  intros position ->. exact He.
Qed.

Lemma C4_witness :
  exists e : exn,
    load_data ref_parse_isoformat ref_parse_int malformed_records = Raise e
    /\ loader_exn e.
Proof.
  destruct (C4_malformed_row_aborts_load ref_parse_isoformat ref_parse_int malformed_records)
    as (e & Hrun & He & _).
  - apply Exists_cons_tl, Exists_cons_hd.
    intros [_ (s & z & Hs & Hz)].
    vm_compute in Hs. injection Hs as <-. vm_compute in Hz. discriminate Hz.
  - exists e. split; [exact Hrun | exact He].
Defined.

(** C4, as stated, fails: on a file whose second row has the height
    [tall], the load raises [ValueError] with the field's text, and no
    [MalformedRecordError] with a position. *)
Lemma C4_counterexample :
  load_data ref_parse_isoformat ref_parse_int malformed_records = Raise (ValueError "tall")
  /\ forall position : nat,
       load_data ref_parse_isoformat ref_parse_int malformed_records
       <> Raise (MalformedRecordError position).
Proof.
  assert (load_data ref_parse_isoformat ref_parse_int malformed_records
          = Raise (ValueError "tall")) as H by (vm_compute; reflexivity).
  split; [exact H|]. intros position. rewrite H. discriminate.
Qed.

(** ** Reporter *)

(** On a mapping with no day the summary prints its heading and then
    fails in [min(days)]; no division is reached. *)
Lemma create_visualization_no_days (data : list Sample.t) (durations : list Interval.t)
    (out : list line) :
  create_visualization data durations ∅ out
  = (out ++ [Rule; Title; Rule], Raise (ValueError "min()")).
Proof.
  unfold create_visualization. rewrite dom_empty_L, elements_empty.
  change (sorted []) with (@nil date).
  cbv [mbind io_bind print eval py_min_dates].
  by rewrite <- !app_assoc.
Qed.

(** A single sample, and two samples on different dates, give no
    Interval, hence no day. *)
Lemma calculate_durations_overnight (s1 s2 : Sample.t) :
  date_of (Sample.timestamp s1) <> date_of (Sample.timestamp s2) ->
  calculate_durations [s1; s2] = Ok [].
Proof.
  intros Hne. rewrite calculate_durations_eq. cbn.
  by rewrite (decide_False (P := same_day (s1, s2))).
Qed.

(** C3 (amended). On every input that aggregates to zero days, the
    summary of the Reporter fails: after printing its heading it raises
    the built-in [ValueError] of [min] on the empty list of days.  It
    reaches no division, and it raises no [EmptyDataset]. *)
Theorem C3_no_days_raises_ValueError (data : list Sample.t) (durations : list Interval.t)
    (out : list line) :
  calculate_durations data = Ok durations ->
  aggregate_by_day durations = ∅ ->
  create_visualization data durations (aggregate_by_day durations) out
  = (out ++ [Rule; Title; Rule], Raise (ValueError "min()")).
Proof.
  intros _ ->. apply create_visualization_no_days.
Qed.

Lemma C3_witness :
  create_visualization overnight_samples [] (aggregate_by_day []) []
  = ([Rule; Title; Rule], Raise (ValueError "min()")).
Proof.
  apply (C3_no_days_raises_ValueError overnight_samples [] []).
  - apply calculate_durations_overnight. vm_compute. discriminate.
  - reflexivity.
Defined.

(** C3, as stated, fails: a file of two samples on different dates loads,
    gives no Interval and no day, and the summary then raises
    [ValueError], not [EmptyDataset]. *)
Lemma C3_counterexample :
  exists (data : list Sample.t) (durations : list Interval.t),
    load_data ref_parse_isoformat ref_parse_int overnight_records = Ok data
    /\ calculate_durations data = Ok durations
    /\ aggregate_by_day durations = ∅
    /\ (create_visualization data durations (aggregate_by_day durations) []).2
       = Raise (ValueError "min()")
    /\ (create_visualization data durations (aggregate_by_day durations) []).2
       <> Raise EmptyDataset.
Proof.
  exists overnight_samples, []. split; [vm_compute; reflexivity|].
  split; [vm_compute; reflexivity|]. split; [reflexivity|].
  change (aggregate_by_day []) with (∅ : gmap date day_stats).
  rewrite create_visualization_no_days. by split.
Qed.

(** ** The pipeline *)




(** ** Further properties *)

Lemma whole_minutes_exact (k : Z) :
  0 <= k < 1440 ->
  (total_seconds (k * 60000000)%Z / 60)%float = float_of_Z k
  /\ py_min (float_of_Z k) 60 = float_of_Z (Z.min k 60).
Proof.
  intros Hk.
  assert (forallb (fun n : nat =>
            PrimFloat.Leibniz.eqb
              (total_seconds (Z.of_nat n * 60000000)%Z / 60)%float (float_of_Z (Z.of_nat n))
            && PrimFloat.Leibniz.eqb
                 (py_min (float_of_Z (Z.of_nat n)) 60)
                 (float_of_Z (Z.min (Z.of_nat n) 60)))
            (seq 0 1440) = true) as Hall by (vm_compute; reflexivity).
  rewrite List.forallb_forall in Hall.
  specialize (Hall (Z.to_nat k)). rewrite Z2Nat.id in Hall by lia.
  apply andb_true_iff in Hall as [H1 H2].
  - by split; apply FloatAxioms.Leibniz.eqb_spec.
  - apply List.in_seq. lia.
Qed.

(** Between two samples of one day that are a whole number [k] of
    minutes apart, the Deriver's elapsed minutes are exactly [k] and the
    Interval's duration is exactly [min(k, 60)]: the two binary64
    divisions lose nothing there. *)
Theorem duration_of_whole_minutes (current next_entry : Sample.t) (k : Z) :
  0 <= k < 1440 ->
  datetime_sub (Sample.timestamp next_entry) (Sample.timestamp current) = k * 60000000 ->
  elapsed_minutes current next_entry = float_of_Z k
  /\ Interval.duration_min (interval_between (current, next_entry))
     = float_of_Z (Z.min k 60).
Proof.
  intros Hk Hsub. destruct (whole_minutes_exact k Hk) as [He Hm].
  unfold interval_between, elapsed_minutes. simpl. rewrite Hsub.
  split; [exact He|]. by rewrite He.
Qed.

Lemma duration_of_whole_minutes_witness :
  elapsed_minutes (sample_at 1 9 0 0 950) (sample_at 1 10 30 0 850) = float_of_Z 90
  /\ Interval.duration_min
       (interval_between (sample_at 1 9 0 0 950, sample_at 1 10 30 0 850))
     = float_of_Z (Z.min 90 60).
Proof.
  apply (duration_of_whole_minutes _ _ 90); [lia | reflexivity].
Defined.

(** A file all of whose rows have both fields, each of which parses,
    loads: the Loader returns one sample per row. *)
Theorem load_data_total_on_well_formed (parse_isoformat : string -> option datetime)
    (parse_int : string -> option Z) (records : list (list string)) :
  Forall (well_formed_row parse_isoformat parse_int) (DictReader records) ->
  exists data : list Sample.t,
    load_data parse_isoformat parse_int records = Ok data
    /\ length data = length (DictReader records).
Proof.
  intros Hall. unfold load_data.
  assert (forall rows acc,
            Forall (well_formed_row parse_isoformat parse_int) rows ->
            exists data,
              for_in rows (load_data_body parse_isoformat parse_int) acc = Ok data
              /\ length data = (length acc + length rows)%nat) as Hloop.
  { induction rows as [|row rows IH]; intros acc Hrows; simpl.
    - exists acc. split; [done|lia].
    - apply Forall_cons in Hrows as [Hrow Hrows].
      destruct (load_data_body_well_formed parse_isoformat parse_int acc row Hrow)
        as [acc' Hbody].
      rewrite Hbody. simpl.
      apply load_data_body_Ok in Hbody as (_ & t & h & ->).
      destruct (IH (acc ++ [Sample.Make t h (bool_decide (STANDING_THRESHOLD <= h))]) Hrows)
        as (data & Hrun & Hlen).
      exists data. split; [done|]. rewrite Hlen, length_app. simpl. lia. }
  destruct (Hloop (DictReader records) [] Hall) as (data & Hrun & Hlen).
  by exists data.
Qed.

Lemma load_data_total_on_well_formed_witness :
  exists data : list Sample.t,
    load_data ref_parse_isoformat ref_parse_int threshold_records = Ok data
    /\ length data = 2%nat.
Proof.
  apply (load_data_total_on_well_formed ref_parse_isoformat ref_parse_int threshold_records).
  repeat constructor; eexists _, _; split; vm_compute; reflexivity.
Defined.

(** ** The Deriver, pair by pair *)

Lemma adjacent_cons {A : Type} (a b : A) (l : list A) :
  adjacent (a :: b :: l) = (a, b) :: adjacent (b :: l).
Proof. reflexivity. Qed.

Lemma adjacent_singleton {A : Type} (a : A) : adjacent [a] = [].
Proof. reflexivity. Qed.

Lemma adjacent_app {A : Type} (l1 l2 : list A) (a b : A) :
  adjacent (l1 ++ a :: b :: l2) = adjacent (l1 ++ [a]) ++ (a, b) :: adjacent (b :: l2).
Proof.
  induction l1 as [|x [|y l1] IH]; [reflexivity| reflexivity|].
  change (adjacent ((x :: y :: l1) ++ a :: b :: l2))
    with ((x, y) :: adjacent ((y :: l1) ++ a :: b :: l2)).
  rewrite IH. reflexivity.
Qed.

(** The Intervals of a sequence cut between two samples [a] and [b] are
    those of the part up to [a], then the Interval from [a] to [b] when
    both are of one calendar date, then those of the part from [b] on.
    Across a change of date the two parts are derived independently. *)
Theorem calculate_durations_split (l1 l2 : list Sample.t) (a b : Sample.t) :
  exists ds1 ds2 : list Interval.t,
    calculate_durations (l1 ++ [a]) = Ok ds1
    /\ calculate_durations (b :: l2) = Ok ds2
    /\ calculate_durations (l1 ++ a :: b :: l2)
       = Ok (ds1 ++ (if decide (same_day (a, b)) then [interval_between (a, b)] else [])
                 ++ ds2).
Proof.
  eexists _, _. rewrite !calculate_durations_eq. split; [reflexivity|].
  split; [reflexivity|]. f_equal.
  rewrite adjacent_app, filter_app, filter_cons, fmap_app.
  by destruct (decide (same_day (a, b))).
Qed.

(** The last sample gives only its timestamp: its height and its state
    enter no Interval. *)
Theorem last_sample_state_unused (data : list Sample.t) (s s' : Sample.t) :
  Sample.timestamp s = Sample.timestamp s' ->
  calculate_durations (data ++ [s]) = calculate_durations (data ++ [s']).
Proof.
  intros Hts. rewrite !calculate_durations_eq. f_equal.
  destruct data as [|a data _] using rev_ind; [reflexivity|].
  rewrite <- !app_assoc. simpl.
  change [a; s] with (a :: s :: []). change [a; s'] with (a :: s' :: []).
  rewrite !adjacent_app, !adjacent_singleton, !filter_app, !filter_cons, !fmap_app,
    !filter_nil.
  assert (same_day (a, s) <-> same_day (a, s')) as Hsame
    by (unfold same_day; simpl; by rewrite Hts).
  assert (interval_between (a, s) = interval_between (a, s')) as Hiv
    by (unfold interval_between, elapsed_minutes; simpl; by rewrite Hts).
  destruct (decide (same_day (a, s))) as [H|H];
    destruct (decide (same_day (a, s'))) as [H'|H']; try tauto.
  by rewrite !fmap_cons, Hiv.
Qed.

Lemma last_sample_state_unused_witness :
  calculate_durations (scenario ++ [sample_at 1 11 0 0 950])
  = calculate_durations (scenario ++ [sample_at 1 11 0 0 700]).
Proof.
  apply (last_sample_state_unused scenario). reflexivity.
Defined.

(** ** Loader and Deriver together *)

(** Every Interval derived from loaded samples is standing if and only if
    the height it records is at least 900: state and height both come
    from the earlier sample of its pair. *)
Theorem loaded_intervals_classified (parse_isoformat : string -> option datetime)
    (parse_int : string -> option Z) (records : list (list string))
    (data : list Sample.t) (durations : list Interval.t) :
  load_data parse_isoformat parse_int records = Ok data ->
  calculate_durations data = Ok durations ->
  Forall (fun d => Interval.is_standing d = true <-> 900 <= Interval.height d) durations.
Proof.
  intros Hload. rewrite calculate_durations_eq. intros [= <-].
  pose proof (load_data_loop_classified _ _ _ [] data (Forall_nil_2 _) Hload) as Hdata.
  rewrite Forall_fmap. apply Forall_forall.
  intros [cur nxt] [_ Hin]%list_elem_of_filter. simpl.
  apply list_elem_of_lookup in Hin as [i [Hc _]%adjacent_lookup]. simpl in Hc.
  rewrite Forall_forall in Hdata. apply Hdata. by eapply list_elem_of_lookup_2.
Qed.

Lemma loaded_intervals_classified_witness :
  Forall (fun d => Interval.is_standing d = true <-> 900 <= Interval.height d)
         scenario_intervals.
Proof.
  apply (loaded_intervals_classified ref_parse_isoformat ref_parse_int
           scenario_records scenario).
  - vm_compute. reflexivity.
  - vm_compute. reflexivity.
Defined.

(** ** Durations are numbers, and at most 60 *)

Section FloatNumbers.
Local Open Scope Z_scope.

Lemma binary_round_aux_not_nan sx mx ex lx :
  0 <= mx -> SF_not_nan (binary_round_aux prec emax sx mx ex lx) = true.
Proof.
  intros H. unfold binary_round_aux.
  pose proof (shr_fexp_nonneg mx ex lx H) as H1.
  destruct (shr_fexp prec emax mx ex lx) as [mrs' e']. simpl in H1.
  pose proof (shr_fexp_nonneg _ e' loc_Exact
                (round_nearest_even_nonneg _ (loc_of_shr_record mrs') H1)) as H2.
  destruct (shr_fexp prec emax _ e' loc_Exact) as [mrs'' e'']. simpl in H2.
  destruct (shr_m mrs'') as [|m|m]; [done| |lia].
  by destruct (e'' <=? emax - prec).
Qed.

Lemma SFdiv_not_nan x sy my ey :
  SF_not_nan x = true ->
  SF_not_nan (SFdiv prec emax x (S754_finite sy my ey)) = true.
Proof.
  destruct x as [sx|sx| |sx mx ex]; simpl; try done. intros _.
  unfold SFdiv_core_binary.
  set (s := _ - _ - Z.min _ _).
  set (m' := match s with Z0 => _ | Zpos _ => _ | Zneg _ => _ end).
  assert (0 <= m') as Hm'.
  { subst m'. destruct s; [lia| |lia]. apply Z.shiftl_nonneg. lia. }
  pose proof (Z.div_pos m' (Zpos my) Hm' ltac:(lia)) as Hq.
  unfold Z.div in Hq. destruct (Z.div_eucl m' (Zpos my)) as [q r]. simpl in Hq.
  by apply binary_round_aux_not_nan.
Qed.

Lemma SF_nonneg_not_nan x : SF_nonneg x = true -> SF_not_nan x = true.
Proof. by destruct x as [[]|[]| |[] m e]. Qed.

Lemma float_of_Z_not_nan (z : Z) : SF_not_nan (Prim2SF (float_of_Z z)) = true.
Proof.
  unfold float_of_Z. destruct (z <? 0).
  - rewrite FloatAxioms.opp_spec.
    pose proof (SF_nonneg_not_nan _ (of_uint63_nonneg (Uint63.of_Z (- z)))) as H.
    by destruct (Prim2SF _).
  - apply SF_nonneg_not_nan, of_uint63_nonneg.
Qed.

Lemma div_not_nan (x y : float) sy my ey :
  Prim2SF y = S754_finite sy my ey ->
  SF_not_nan (Prim2SF x) = true -> SF_not_nan (Prim2SF (x / y)) = true.
Proof. intros Hy Hx. rewrite FloatAxioms.div_spec, Hy. by apply SFdiv_not_nan. Qed.

(** A number that is not above 60 is at most 60. *)
Lemma not_above_60 (x : float) :
  SF_not_nan (Prim2SF x) = true -> (60 <? x)%float = false -> (x <=? 60)%float = true.
Proof.
  rewrite FloatAxioms.ltb_spec, FloatAxioms.leb_spec.
  destruct (Prim2SF 60) as [| | |s60 m60 e60] eqn:H60; try (by vm_compute in H60).
  assert (s60 = false) as -> by (vm_compute in H60; congruence). clear H60.
  unfold SFltb, SFleb.
  destruct (Prim2SF x) as [[]|[]| |[] m e]; simpl; try done.
  rewrite (Z.compare_antisym e60 e).
  destruct (e60 ?= e); simpl; try done.
  change (Pos.compare_cont Eq m m60) with (Pos.compare m m60).
  change (Pos.compare_cont Eq m60 m) with (Pos.compare m60 m).
  rewrite (Pos.compare_antisym m60 m).
  by destruct (Pos.compare m60 m).
Qed.
End FloatNumbers.

Lemma elapsed_minutes_not_nan (current next_entry : Sample.t) :
  SF_not_nan (Prim2SF (elapsed_minutes current next_entry)) = true.
Proof.
  unfold elapsed_minutes, total_seconds.
  eapply div_not_nan; [by vm_compute|].
  eapply div_not_nan; [by vm_compute|].
  apply float_of_Z_not_nan.
Qed.

(** Whatever the samples, in order or not, no Interval lasts more than
    60 minutes: the cap holds for every input, and no duration is NaN. *)
Theorem duration_at_most_60 (data : list Sample.t) :
  exists durations : list Interval.t,
    calculate_durations data = Ok durations
    /\ Forall (fun d => (Interval.duration_min d <=? 60)%float = true) durations.
Proof.
  eexists. split; [apply calculate_durations_eq|].
  rewrite Forall_fmap. apply Forall_forall. intros [cur nxt] _. simpl.
  unfold py_min. destruct (60 <? elapsed_minutes cur nxt)%float eqn:Hlt.
  - by vm_compute.
  - apply not_above_60; [apply elapsed_minutes_not_nan | exact Hlt].
Qed.

(** ** Totals of a day are never negative on ordered input *)

Lemma SFadd_nonneg x y :
  SF_nonneg x = true -> SF_nonneg y = true -> SF_nonneg (SFadd prec emax x y) = true.
Proof.
  destruct x as [[]|[]| |[] mx ex]; destruct y as [[]|[]| |[] my ey]; simpl; try done.
  intros _ _. unfold binary_normalize, binary_round.
  destruct (shl_align _ _ _) as [mz ez]. by apply binary_round_aux_nonneg.
Qed.

Lemma add_nonneg (x y : float) :
  SF_nonneg (Prim2SF x) = true -> SF_nonneg (Prim2SF y) = true ->
  SF_nonneg (Prim2SF (x + y)) = true.
Proof. intros Hx Hy. rewrite FloatAxioms.add_spec. by apply SFadd_nonneg. Qed.

Lemma accumulate_nonneg (xs : list float) :
  Forall (fun x => SF_nonneg (Prim2SF x) = true) xs ->
  SF_nonneg (Prim2SF (accumulate xs)) = true.
Proof.
  induction xs as [|x xs IH] using rev_ind; intros Hxs; [by vm_compute|].
  apply Forall_app in Hxs as [Hxs Hx]. apply Forall_cons in Hx as [Hx _].
  rewrite accumulate_snoc. apply add_nonneg; [by apply IH | exact Hx].
Qed.

Lemma minutes_SF_nonneg (td : timedelta) :
  0 <= td -> SF_nonneg (Prim2SF (py_min (total_seconds td / 60) 60)) = true.
Proof.
  intros Htd. unfold py_min. destruct (60 <? _)%float; [by vm_compute|].
  unfold total_seconds, float_of_Z.
  destruct (Z.ltb_spec td 0) as [?|_]; [lia|].
  eapply div_nonneg; [by vm_compute|].
  eapply div_nonneg; [by vm_compute|].
  apply of_uint63_nonneg.
Qed.

Lemma datetime_sub_nonneg (a b : datetime) :
  date_of a = date_of b ->
  datetime_valid a = true -> datetime_valid b = true ->
  datetime_leb a b = true ->
  0 <= datetime_sub b a.
Proof.
  intros Hd Ha%datetime_valid_fields Hb%datetime_valid_fields Hle.
  rewrite (datetime_sub_same_day _ _ Hd). unfold seconds_of_day.
  unfold datetime_leb, datetime_compare in Hle.
  rewrite Hd, date_compare_refl in Hle.
  destruct (Z.compare_spec (hour a) (hour b)); [|lia|done].
  destruct (Z.compare_spec (minute a) (minute b)); [|lia|done].
  destruct (Z.compare_spec (second a) (second b)); [|lia|done].
  destruct (Z.compare_spec (microsecond a) (microsecond b)); [lia|lia|done].
Qed.

(** When the timestamps are valid date-times and never decrease, the
    standing and the sitting total of every day are numbers that are not
    negative. *)
Theorem totals_nonneg (data : list Sample.t) (durations : list Interval.t)
    (day : date) (st : day_stats) :
  Forall (fun s => datetime_valid (Sample.timestamp s) = true) data ->
  Forall (fun p => datetime_leb (Sample.timestamp p.1) (Sample.timestamp p.2) = true)
         (adjacent data) ->
  calculate_durations data = Ok durations ->
  aggregate_by_day durations !! day = Some st ->
  (0 <=? standing st)%float = true /\ (0 <=? sitting st)%float = true.
Proof.
  intros Hvalid Hsorted Hrun Hst.
  rewrite calculate_durations_eq in Hrun. injection Hrun as <-.
  assert (Forall (fun d => SF_nonneg (Prim2SF (Interval.duration_min d)) = true)
                 (interval_between <$> filter same_day (adjacent data))) as Hall.
  { rewrite Forall_fmap. apply Forall_forall.
    intros [cur nxt] [Hday Hin]%list_elem_of_filter. simpl.
    apply minutes_SF_nonneg.
    rewrite Forall_forall in Hvalid. rewrite Forall_forall in Hsorted.
    pose proof (Hsorted _ Hin) as Hle. simpl in Hle.
    apply list_elem_of_lookup in Hin as [i [Hc Hn]%adjacent_lookup]. simpl in Hc, Hn.
    apply list_elem_of_lookup_2 in Hc, Hn.
    exact (datetime_sub_nonneg _ _ Hday (Hvalid _ Hc) (Hvalid _ Hn) Hle). }
  apply aggregate_by_day_totals in Hst as (_ & -> & ->).
  split; apply leb_0_nonneg, accumulate_nonneg; rewrite Forall_fmap;
    apply Forall_forall; intros d [_ Hin]%list_elem_of_filter;
    rewrite Forall_forall in Hall; by apply Hall.
Qed.

Lemma totals_nonneg_witness :
  exists st : day_stats,
    aggregate_by_day scenario_intervals !! Date 2024 3 1 = Some st
    /\ (0 <=? standing st)%float = true /\ (0 <=? sitting st)%float = true.
Proof.
  exists (DayStats 60 10 scenario_intervals).
  assert (aggregate_by_day scenario_intervals !! Date 2024 3 1
          = Some (DayStats 60 10 scenario_intervals)) as Hst by (vm_compute; reflexivity).
  split; [exact Hst|].
  apply (totals_nonneg scenario scenario_intervals (Date 2024 3 1)).
  - repeat constructor.
  - repeat constructor.
  - vm_compute. reflexivity.
  - exact Hst.
Defined.

(** ** Aggregating day by day *)

(** Aggregating two sequences that share no start date gives the union
    of their aggregates: the Intervals of other days leave the totals and
    the interval list of a day untouched. *)
Theorem aggregate_by_day_disjoint_union (ds ds' : list Interval.t) :
  (forall d d', d ∈ ds -> d' ∈ ds' ->
                date_of (Interval.start d) <> date_of (Interval.start d')) ->
  aggregate_by_day (ds ++ ds') = aggregate_by_day ds ∪ aggregate_by_day ds'.
Proof.
  intros Hdisj. apply map_eq. intros day.
  rewrite lookup_union, !aggregate_by_day_lookup, filter_app.
  destruct (filter (on_day day) ds) as [|d es] eqn:Hes;
    destruct (filter (on_day day) ds') as [|d' es'] eqn:Hes'; simpl; try done.
  - by rewrite app_nil_r.
  - assert (d ∈ filter (on_day day) ds) as [Hd Hin]%list_elem_of_filter
      by (rewrite Hes; left).
    assert (d' ∈ filter (on_day day) ds') as [Hd' Hin']%list_elem_of_filter
      by (rewrite Hes'; left).
    destruct (Hdisj d d' Hin Hin'). unfold on_day in Hd, Hd'. congruence.
Qed.

Lemma aggregate_by_day_disjoint_union_witness :
  aggregate_by_day (scenario_intervals ++ next_day_intervals)
  = aggregate_by_day scenario_intervals ∪ aggregate_by_day next_day_intervals.
Proof.
  apply aggregate_by_day_disjoint_union.
  intros d d' Hd Hd'.
  apply list_elem_of_singleton in Hd' as ->.
  repeat (apply elem_of_cons in Hd as [->|Hd]; [discriminate|]).
  by apply elem_of_nil in Hd.
Defined.

(** ** A positive integer is a positive float *)

Section FloatPositive.
Local Open Scope Z_scope.

Lemma shr_1_div2 mrs : 0 <= shr_m mrs -> shr_m (shr_1 mrs) = shr_m mrs / 2.
Proof.
  destruct mrs as [[|[p|p|]|p] r s]; simpl; intros H; try lia; try reflexivity.
  - rewrite Pos2Z.inj_xI. apply Z.div_unique with 1; lia.
  - rewrite Pos2Z.inj_xO. apply Z.div_unique with 0; lia.
Qed.

Lemma iter_pos_shr_1_div p : forall mrs,
  0 <= shr_m mrs -> shr_m (SpecFloat.iter_pos shr_1 p mrs) = shr_m mrs / 2 ^ Zpos p.
Proof.
  induction p as [p IH|p IH|]; intros mrs H; simpl SpecFloat.iter_pos.
  - rewrite IH by (apply iter_pos_shr_1_nonneg; by apply shr_1_nonneg).
    rewrite IH by (by apply shr_1_nonneg). rewrite shr_1_div2 by done.
    rewrite !Z.div_div by lia. f_equal.
    rewrite Pos2Z.inj_xI, <- !Z.pow_add_r, <- Z.pow_succ_r by lia. f_equal. lia.
  - rewrite IH by (by apply iter_pos_shr_1_nonneg). rewrite IH by done.
    rewrite Z.div_div by lia. f_equal.
    rewrite Pos2Z.inj_xO, <- Z.pow_add_r by lia. f_equal. lia.
  - rewrite shr_1_div2 by done. reflexivity.
Qed.

Lemma Zdigits2_log2 m : 0 < m -> Zdigits2 m = Z.log2 m + 1.
Proof.
  destruct m as [|p|p]; [lia| |lia]. intros _. simpl.
  induction p as [p IH|p IH|]; simpl; [| |reflexivity].
  - rewrite Pos2Z.inj_succ, IH. destruct p; simpl; lia.
  - rewrite Pos2Z.inj_succ, IH. destruct p; simpl; lia.
Qed.

(** Rounding to the format's exponent keeps a positive mantissa positive
    as long as the number is not below the smallest exponent, and keeps
    its magnitude [digits + exponent]. *)
Lemma shr_fexp_pos m e l :
  0 < m -> SpecFloat.emin prec emax < Zdigits2 m + e ->
  0 < shr_m (shr_fexp prec emax m e l).1
  /\ Zdigits2 m + e <= Zdigits2 (shr_m (shr_fexp prec emax m e l).1)
                       + (shr_fexp prec emax m e l).2.
Proof.
  intros Hm Hmin. unfold shr_fexp, shr.
  assert (shr_m (shr_record_of_loc m l) = m) as Hrec by (by destruct l as [|[]]).
  set (n := SpecFloat.fexp prec emax (Zdigits2 m + e) - e).
  assert (n <= Z.log2 m) as Hn.
  { subst n. unfold SpecFloat.fexp, SpecFloat.emin in *.
    rewrite (Zdigits2_log2 m Hm) in *. unfold prec, emax in *. lia. }
  destruct n as [|p|p] eqn:Hp; simpl; rewrite ?Hrec; [lia| |lia].
  rewrite iter_pos_shr_1_div by (rewrite Hrec; lia). rewrite Hrec.
  rewrite <- Z.shiftr_div_pow2 by lia.
  assert (0 < Z.shiftr m (Zpos p)) as Hpos.
  { rewrite Z.shiftr_div_pow2 by lia. apply Z.div_str_pos. split; [lia|].
    etransitivity; [|apply Z.log2_spec; lia].
    apply Z.pow_le_mono_r; lia. }
  split; [exact Hpos|].
  rewrite (Zdigits2_log2 m Hm), (Zdigits2_log2 _ Hpos), Z.log2_shiftr by lia. lia.
Qed.

Lemma Zdigits2_mono a b : 0 < a -> a <= b -> Zdigits2 a <= Zdigits2 b.
Proof.
  intros Ha Hab. rewrite !Zdigits2_log2 by lia.
  pose proof (Z.log2_le_mono a b Hab). lia.
Qed.

Lemma round_nearest_even_ge m l : m <= round_nearest_even m l.
Proof. destruct l as [|[]]; simpl; try lia. destruct (Z.even m); lia. Qed.

Lemma binary_round_aux_pos mx ex lx :
  0 < mx -> SpecFloat.emin prec emax < Zdigits2 mx + ex ->
  match binary_round_aux prec emax false mx ex lx with
  | S754_finite false _ _ | S754_infinity false => True
  | _ => False
  end.
Proof.
  intros Hm Hmin. unfold binary_round_aux.
  destruct (shr_fexp_pos mx ex lx Hm Hmin) as [H1 H1e].
  destruct (shr_fexp prec emax mx ex lx) as [mrs' e']. simpl in H1, H1e.
  pose proof (round_nearest_even_ge (shr_m mrs') (loc_of_shr_record mrs')) as Hge.
  set (m1 := round_nearest_even (shr_m mrs') (loc_of_shr_record mrs')) in *.
  assert (0 < m1) as Hm1 by lia.
  assert (SpecFloat.emin prec emax < Zdigits2 m1 + e') as Hmin1.
  { pose proof (Zdigits2_mono _ _ H1 Hge). lia. }
  destruct (shr_fexp_pos m1 e' loc_Exact Hm1 Hmin1) as [H2 _].
  destruct (shr_fexp prec emax m1 e' loc_Exact) as [mrs'' e'']. simpl in H2.
  destruct (shr_m mrs'') as [|m|m]; [lia| |lia].
  by destruct (e'' <=? emax - prec).
Qed.

Lemma shl_align_digits mx ex ex' :
  Zdigits2 (Zpos (shl_align mx ex ex').1) + (shl_align mx ex ex').2
  = Zdigits2 (Zpos mx) + ex.
Proof.
  unfold shl_align. destruct (ex' - ex) as [|d|d] eqn:Hd; simpl; try reflexivity.
  assert (forall n m, Zpos (digits2_pos (Pos.iter xO m n))
                      = Zpos (digits2_pos m) + Zpos n) as Hiter.
  { intros n m. induction n as [|n IH] using Pos.peano_ind.
    - simpl. lia.
    - rewrite Pos.iter_succ. simpl digits2_pos. rewrite Pos2Z.inj_succ, IH. lia. }
  rewrite Hiter. lia.
Qed.

Lemma of_uint63_pos (n : PrimInt63.int) :
  0 < Uint63.to_Z n ->
  match Prim2SF (of_uint63 n) with
  | S754_finite false _ _ | S754_infinity false => True
  | _ => False
  end.
Proof.
  intros Hn. rewrite FloatAxioms.of_uint63_spec.
  destruct (Uint63.to_Z n) as [|m|m]; [lia| |lia]. simpl. unfold binary_round.
  pose proof (shl_align_digits m 0 (SpecFloat.fexp prec emax (Zpos (digits2_pos m) + 0))) as Hd.
  destruct (shl_align _ _ _) as [mz ez]. simpl in Hd.
  apply binary_round_aux_pos; [lia|].
  simpl Zdigits2. rewrite Hd. unfold SpecFloat.emin, prec, emax. lia.
Qed.
End FloatPositive.

(** The float of a positive integer below [2^63] is not zero. *)
Lemma float_of_Z_nonzero (z : Z) :
  0 < z < 2 ^ 63 -> (float_of_Z z =? 0)%float = false.
Proof.
  intros Hz. unfold float_of_Z. destruct (Z.ltb_spec z 0) as [?|_]; [lia|].
  rewrite FloatAxioms.eqb_spec. change (Prim2SF 0) with (S754_zero false).
  pose proof (of_uint63_pos (Uint63.of_Z z)) as Hpos.
  rewrite Uint63.of_Z_spec, Z.mod_small in Hpos by (change wB with (2 ^ 63); lia).
  specialize (Hpos ltac:(lia)).
  by destruct (Prim2SF (of_uint63 (Uint63.of_Z z))) as [[]|[]| |[] m e].
Qed.

(** ** The order of dates *)

Lemma date_compare_Eq (a b : date) : date_compare a b = Eq -> a = b.
Proof.
  destruct a as [y m d], b as [y' m' d']. unfold date_compare. simpl.
  destruct (Z.compare_spec y y'); try done.
  destruct (Z.compare_spec m m'); try done.
  destruct (Z.compare_spec d d'); try done. by subst.
Qed.

Lemma date_compare_antisym (a b : date) :
  date_compare b a = CompOpp (date_compare a b).
Proof.
  unfold date_compare.
  rewrite (Z.compare_antisym (year a)), (Z.compare_antisym (month a)),
    (Z.compare_antisym (day a)).
  destruct (year a ?= year b); simpl; try done.
  destruct (month a ?= month b); simpl; done.
Qed.

Lemma date_compare_Lt_trans (a b c : date) :
  date_compare a b = Lt -> date_compare b c = Lt -> date_compare a c = Lt.
Proof.
  unfold date_compare.
  destruct (Z.compare_spec (year a) (year b)); try done;
    destruct (Z.compare_spec (year b) (year c)); try done;
    destruct (Z.compare_spec (year a) (year c)); try lia; try done;
    destruct (Z.compare_spec (month a) (month b)); try done;
    destruct (Z.compare_spec (month b) (month c)); try done;
    destruct (Z.compare_spec (month a) (month c)); try lia; try done;
    destruct (Z.compare_spec (day a) (day b)); try done;
    destruct (Z.compare_spec (day b) (day c)); try done;
    destruct (Z.compare_spec (day a) (day c)); try lia; done.
Qed.

#[local] Instance date_leb_total : Total (fun a b : date => Is_true (date_leb a b)).
Proof.
  intros a b. unfold date_leb. rewrite (date_compare_antisym a b).
  destruct (date_compare a b); simpl; auto.
Qed.

#[local] Instance date_leb_trans : Transitive (fun a b : date => Is_true (date_leb a b)).
Proof.
  intros a b c. unfold date_leb.
  destruct (date_compare a b) eqn:Hab; [|
    destruct (date_compare b c) eqn:Hbc; [| |done] |done].
  - by apply date_compare_Eq in Hab as ->.
  - by apply date_compare_Eq in Hbc as <-; rewrite Hab.
  - by rewrite (date_compare_Lt_trans a b c Hab Hbc).
Qed.

#[local] Instance date_leb_antisym :
  AntiSymm (=) (fun a b : date => Is_true (date_leb a b)).
Proof.
  intros a b. unfold date_leb. rewrite (date_compare_antisym a b).
  destruct (date_compare a b) eqn:Hab; simpl; try done.
  intros _ _. by apply date_compare_Eq.
Qed.

(** [min(ds)] is a date of the list that no date of the list precedes,
    and [max(ds)] one that none follows. *)
Lemma py_min_dates_spec (ds : list date) (m : date) :
  py_min_dates ds = Ok m -> m ∈ ds /\ forall x, x ∈ ds -> date_leb m x.
Proof.
  destruct ds as [|d ds]; [done|]. simpl. intros [= <-].
  revert d. induction ds as [|y ds IH]; intros d; simpl.
  - split; [left|]. intros x ->%list_elem_of_singleton.
    destruct (total (fun a b : date => Is_true (date_leb a b)) d d); done.
  - destruct (IH (if date_leb d y then d else y)) as [Hin Hle].
    split.
    + apply elem_of_cons in Hin as [->|Hin].
      * destruct (date_leb d y); [left | right; left].
      * by right; right.
    + intros x Hx. destruct (date_leb d y) eqn:Hdy.
      * apply elem_of_cons in Hx as [->|Hx]; [apply Hle; left|].
        apply elem_of_cons in Hx as [->|Hx]; [|apply Hle; by right].
        transitivity d; [apply Hle; left | by rewrite Hdy].
      * apply elem_of_cons in Hx as [->|Hx]; [|apply Hle; exact Hx].
        transitivity y; [apply Hle; left|].
        destruct (total (fun a b : date => Is_true (date_leb a b)) d y) as [H|H];
          [by rewrite Hdy in H | exact H].
Qed.

Lemma py_max_dates_spec (ds : list date) (m : date) :
  py_max_dates ds = Ok m -> m ∈ ds /\ forall x, x ∈ ds -> date_leb x m.
Proof.
  destruct ds as [|d ds]; [done|]. simpl. intros [= <-].
  revert d. induction ds as [|y ds IH]; intros d; simpl.
  - split; [left|]. intros x ->%list_elem_of_singleton.
    destruct (total (fun a b : date => Is_true (date_leb a b)) d d); done.
  - destruct (IH (if date_leb y d then d else y)) as [Hin Hle].
    split.
    + apply elem_of_cons in Hin as [->|Hin].
      * destruct (date_leb y d); [left | right; left].
      * by right; right.
    + intros x Hx. destruct (date_leb y d) eqn:Hyd.
      * apply elem_of_cons in Hx as [->|Hx]; [apply Hle; left|].
        apply elem_of_cons in Hx as [->|Hx]; [|apply Hle; by right].
        transitivity d; [by rewrite Hyd | apply Hle; left].
      * apply elem_of_cons in Hx as [->|Hx]; [|apply Hle; exact Hx].
        transitivity y; [|apply Hle; left].
        destruct (total (fun a b : date => Is_true (date_leb a b)) d y) as [H|H];
          [exact H | by rewrite Hyd in H].
Qed.

(** The sorted list of days holds every date of the mapping once. *)
Lemma days_of_Permutation (daily_stats : gmap date day_stats) :
  days_of daily_stats ≡ₚ elements (dom daily_stats).
Proof. apply merge_sort_Permutation. Qed.

Lemma elem_of_days_of (daily_stats : gmap date day_stats) (d : date) :
  d ∈ days_of daily_stats <-> d ∈ dom daily_stats.
Proof. by rewrite days_of_Permutation, elem_of_elements. Qed.

Lemma len_days_of (daily_stats : gmap date day_stats) :
  len (days_of daily_stats) = Z.of_nat (size (dom daily_stats)).
Proof. unfold len. by rewrite days_of_Permutation. Qed.

(** ** The summary, case by case *)

Lemma py_div_60 (x : float) : py_div x 60 = Ok (x / 60)%float.
Proof. reflexivity. Qed.

(** The outcome of the summary in terms of its days and its totals. *)
Lemma create_visualization_cases (data : list Sample.t) (durations : list Interval.t)
    (daily_stats : gmap date day_stats) (out : list line) :
  let days := days_of daily_stats in
  let ts := total_standing_of daily_stats in
  let ss := total_sitting_of daily_stats in
  create_visualization data durations daily_stats out
  = match py_min_dates days, py_max_dates days with
    | Ok first, Ok last =>
        if (ts + ss =? 0)%float
        then (out ++ report_totals first last (len days) ts ss, Raise ZeroDivisionError)
        else if (float_of_Z (len days) =? 0)%float
        then (out ++ report_totals first last (len days) ts ss
                  ++ [ StandingPercentage (100 * ts / (ts + ss));
                       SittingPercentage (100 * ss / (ts + ss));
                       AveragePerDay ],
              Raise ZeroDivisionError)
        else (out ++ report first last (len days) ts ss, Ok tt)
    | Raise e, _ => (out ++ [Rule; Title; Rule], Raise e)
    | Ok _, Raise e => (out ++ [Rule; Title; Rule], Raise e)
    end.
Proof.
  intros days ts ss. unfold create_visualization.
  fold (days_of daily_stats). fold (total_standing_of daily_stats).
  fold (total_sitting_of daily_stats). fold days. fold ts. fold ss.
  cbv [mbind io_bind print eval]. rewrite !py_div_60.
  destruct (py_min_dates days) as [first|e]; [|by rewrite <- !app_assoc].
  destruct (py_max_dates days) as [last|e]; [|by rewrite <- !app_assoc].
  unfold py_div, report, report_totals.
  destruct (ts + ss =? 0)%float; [by rewrite <- !app_assoc|].
  destruct (float_of_Z (len days) =? 0)%float; by rewrite <- !app_assoc.
Qed.

Lemma days_of_nonempty (daily_stats : gmap date day_stats) :
  daily_stats <> ∅ ->
  exists first last,
    py_min_dates (days_of daily_stats) = Ok first
    /\ py_max_dates (days_of daily_stats) = Ok last.
Proof.
  intros Hne. destruct (days_of daily_stats) as [|d ds] eqn:Hdays.
  - destruct Hne. apply dom_empty_iff_L, set_eq. intros x.
    rewrite <- elem_of_days_of, Hdays. set_solver.
  - simpl. eauto.
Qed.

(** When the mapping has a day but its total time is zero, the summary
    prints the date range, the number of days and the two totals, and
    then fails in the first percentage with [ZeroDivisionError]. *)
Theorem summary_zero_total_time (data : list Sample.t) (durations : list Interval.t)
    (daily_stats : gmap date day_stats) (out : list line) :
  daily_stats <> ∅ ->
  (total_standing_of daily_stats + total_sitting_of daily_stats =? 0)%float = true ->
  exists first last : date,
    create_visualization data durations daily_stats out
    = (out ++ report_totals first last (Z.of_nat (size (dom daily_stats)))
                (total_standing_of daily_stats) (total_sitting_of daily_stats),
       Raise ZeroDivisionError).
Proof.
  intros Hne Hzero. destruct (days_of_nonempty _ Hne) as (first & last & Hmin & Hmax).
  exists first, last. rewrite create_visualization_cases. simpl.
  by rewrite Hmin, Hmax, Hzero, len_days_of.
Qed.

(** When the mapping has a day (and fewer than [2^63]) and its total time
    is not zero, the summary completes.  It prints thirteen lines: the
    date range runs from the earliest to the latest date of the mapping,
    the number of days is the number of its dates, and percentages and
    averages are the quotients of the totals. *)
Theorem summary_report (data : list Sample.t) (durations : list Interval.t)
    (daily_stats : gmap date day_stats) (out : list line) :
  daily_stats <> ∅ ->
  Z.of_nat (size (dom daily_stats)) < 2 ^ 63 ->
  (total_standing_of daily_stats + total_sitting_of daily_stats =? 0)%float = false ->
  exists first last : date,
    create_visualization data durations daily_stats out
    = (out ++ report first last (Z.of_nat (size (dom daily_stats)))
                (total_standing_of daily_stats) (total_sitting_of daily_stats),
       Ok tt)
    /\ first ∈ dom daily_stats /\ last ∈ dom daily_stats
    /\ forall d : date, d ∈ dom daily_stats -> date_leb first d /\ date_leb d last.
Proof.
  intros Hne Hsize Hnonzero.
  destruct (days_of_nonempty _ Hne) as (first & last & Hmin & Hmax).
  exists first, last. rewrite create_visualization_cases. simpl.
  rewrite Hmin, Hmax, Hnonzero, len_days_of.
  assert (0 < Z.of_nat (size (dom daily_stats))) as Hpos.
  { assert (size (dom daily_stats) <> 0%nat); [|lia].
    intros Hz%size_empty_iff. apply Hne. by apply dom_empty_iff. }
  rewrite float_of_Z_nonzero by lia.
  apply py_min_dates_spec in Hmin as [Hfirst Hle].
  apply py_max_dates_spec in Hmax as [Hlast Hge].
  rewrite elem_of_days_of in Hfirst, Hlast.
  repeat split; try done.
  - apply Hle. by apply elem_of_days_of.
  - apply Hge. by apply elem_of_days_of.
Qed.

Lemma aggregate_by_day_cons_nonempty (d : Interval.t) (ds : list Interval.t) :
  aggregate_by_day (d :: ds) <> ∅.
Proof.
  intros Hempty.
  assert (is_Some (aggregate_by_day (d :: ds) !! date_of (Interval.start d))) as Hsome.
  { apply aggregate_by_day_is_Some. exists d. split; [left | done]. }
  rewrite Hempty, lookup_empty in Hsome. by destruct Hsome.
Qed.

Lemma summary_zero_total_time_witness :
  exists first last : date,
    create_visualization stalled_samples stalled_intervals
      (aggregate_by_day stalled_intervals) []
    = ([] ++ report_totals first last
               (Z.of_nat (size (dom (aggregate_by_day stalled_intervals))))
               (total_standing_of (aggregate_by_day stalled_intervals))
               (total_sitting_of (aggregate_by_day stalled_intervals)),
       Raise ZeroDivisionError).
Proof.
  apply (summary_zero_total_time stalled_samples stalled_intervals).
  - apply aggregate_by_day_cons_nonempty.
  - vm_compute. reflexivity.
Defined.

Lemma summary_report_witness :
  exists first last : date,
    create_visualization scenario scenario_intervals
      (aggregate_by_day scenario_intervals) []
    = ([] ++ report first last
               (Z.of_nat (size (dom (aggregate_by_day scenario_intervals))))
               (total_standing_of (aggregate_by_day scenario_intervals))
               (total_sitting_of (aggregate_by_day scenario_intervals)),
       Ok tt)
    /\ first ∈ dom (aggregate_by_day scenario_intervals)
    /\ last ∈ dom (aggregate_by_day scenario_intervals)
    /\ forall d : date,
         d ∈ dom (aggregate_by_day scenario_intervals) ->
         date_leb first d /\ date_leb d last.
Proof.
  apply (summary_report scenario scenario_intervals).
  - apply aggregate_by_day_cons_nonempty.
  - vm_compute. reflexivity.
  - vm_compute. reflexivity.
Defined.

(** ** The timeline *)

(** Filtering by each date of a duplicate-free list that holds every
    start date splits a sequence of Intervals: each Interval is in the
    part of exactly one date. *)
Lemma filter_by_day_partition (days : list date) : forall ds : list Interval.t,
  NoDup days ->
  (forall d, d ∈ ds -> date_of (Interval.start d) ∈ days) ->
  concat ((fun day => filter (on_day day) ds) <$> days) ≡ₚ ds.
Proof.
  induction days as [|day days IH]; intros ds Hnodup Hcover.
  - destruct ds as [|d ds]; [done|].
    by destruct (elem_of_nil (date_of (Interval.start d))) as [H _]; destruct H;
      apply Hcover; left.
  - apply NoDup_cons in Hnodup as [Hday Hnodup]. rewrite fmap_cons. cbn [concat].
    etransitivity; [|apply (filter_app_complement (on_day day) ds)].
    apply Permutation_app_head.
    assert (concat ((fun day' => filter (on_day day') ds) <$> days)
            = concat ((fun day' => filter (on_day day')
                                     (filter (fun d => ~ on_day day d) ds)) <$> days))
      as ->.
    { f_equal. apply list_fmap_ext. intros i day' Hday'%list_elem_of_lookup_2.
      rewrite list_filter_filter. apply list_filter_iff. intros d. unfold on_day.
      split; [|tauto]. intros Hd. split; [exact Hd|]. intros Heq. apply Hday.
      by rewrite <- Heq, Hd. }
    apply IH; [exact Hnodup|].
    intros d [Hd Hin]%list_elem_of_filter.
    specialize (Hcover d Hin). apply elem_of_cons in Hcover as [Heq|Hcover]; [|done].
    by destruct Hd.
Qed.

Lemma length_concat_imap_fmap {A B C : Type} (f : nat -> B -> C) (F : A -> list B)
    (l : list A) :
  forall k, length (concat (imap (fun i x => f (k + i)%nat <$> F x) l))
            = length (concat (F <$> l)).
Proof.
  induction l as [|x l IH]; intros k; [done|].
  rewrite fmap_cons. cbn [imap concat]. rewrite !length_app, length_fmap. f_equal.
  rewrite <- (IH (S k)). do 2 f_equal. apply imap_ext. intros i y _. simpl.
  by rewrite Nat.add_succ_r.
Qed.

Lemma StronglySorted_NoDup_strict (l : list date) :
  StronglySorted (fun a b : date => Is_true (date_leb a b)) l -> NoDup l ->
  StronglySorted (fun a b : date => Is_true (date_ltb a b)) l.
Proof.
  induction 1 as [|a l Hsorted IH Hall]; intros Hnodup; [constructor|].
  apply NoDup_cons in Hnodup as [Ha Hnodup]. constructor; [by apply IH|].
  rewrite Forall_forall in Hall. apply Forall_forall. intros b Hb.
  specialize (Hall b Hb). unfold date_leb in Hall. unfold date_ltb.
  destruct (date_compare a b) eqn:Hab; try done.
  apply date_compare_Eq in Hab as ->. by destruct Ha.
Qed.

(** The timeline has one row per date of the aggregate, the dates in
    strictly increasing order; the row of a date holds one bar for each
    Interval that starts on it, in input order.  Every Interval is in
    exactly one row, so there are as many bars as Intervals. *)
Theorem timeline_one_bar_per_interval (durations : list Interval.t) :
  let daily_stats := aggregate_by_day durations in
  let days := days_of daily_stats in
  timeline daily_stats
  = concat (imap (fun idx day => timeline_bar idx <$> filter (on_day day) durations) days)
  /\ StronglySorted (fun a b : date => Is_true (date_ltb a b)) days
  /\ concat ((fun day => filter (on_day day) durations) <$> days) ≡ₚ durations
  /\ length (timeline daily_stats) = length durations.
Proof.
  intros daily_stats days.
  assert (NoDup days) as Hnodup.
  { unfold days. rewrite days_of_Permutation. apply NoDup_elements. }
  assert (timeline daily_stats
          = concat (imap (fun idx day => timeline_bar idx <$> filter (on_day day) durations)
                         days)) as Hrows.
  { unfold timeline. fold (days_of daily_stats). fold days. f_equal.
    apply imap_ext. intros idx day Hday%list_elem_of_lookup_2.
    apply elem_of_days_of, elem_of_dom in Hday as [st Hst]. simpl.
    unfold stats_of. rewrite Hst. simpl.
    by apply aggregate_by_day_totals in Hst as (-> & _). }
  assert (concat ((fun day => filter (on_day day) durations) <$> days) ≡ₚ durations)
    as Hpart.
  { apply filter_by_day_partition; [exact Hnodup|].
    intros d Hd. apply elem_of_days_of, elem_of_dom, aggregate_by_day_is_Some.
    by exists d. }
  repeat split; [exact Hrows| |exact Hpart|].
  - apply StronglySorted_NoDup_strict; [|exact Hnodup].
    apply (StronglySorted_merge_sort _).
  - rewrite Hrows.
    rewrite (length_concat_imap_fmap timeline_bar
               (fun day => filter (on_day day) durations) days 0).
    by rewrite Hpart.
Qed.

(** ** [main] *)

(** A load that returns has read one sample from each row, and every row
    was well formed. *)
Lemma load_data_Ok_rows (parse_isoformat : string -> option datetime)
    (parse_int : string -> option Z) (records : list (list string))
    (data : list Sample.t) :
  load_data parse_isoformat parse_int records = Ok data ->
  length data = length (DictReader records)
  /\ Forall (well_formed_row parse_isoformat parse_int) (DictReader records).
Proof.
  unfold load_data.
  assert (forall rows acc data,
            for_in rows (load_data_body parse_isoformat parse_int) acc = Ok data ->
            length data = (length acc + length rows)%nat
            /\ Forall (well_formed_row parse_isoformat parse_int) rows) as Hloop.
  { induction rows as [|row rows IH]; intros acc data'; simpl.
    - intros [= <-]. split; [lia | constructor].
    - destruct (load_data_body parse_isoformat parse_int acc row) as [acc'|e] eqn:Hbody;
        simpl; [|done].
      intros Hrun. apply load_data_body_Ok in Hbody as (Hwf & t & h & ->).
      apply IH in Hrun as [Hlen Hall]. split; [|by constructor].
      rewrite Hlen, length_app. simpl. lia. }
  intros Hrun. by apply Hloop in Hrun.
Qed.

(** A summary that completes had a day to report and a total time that
    is not zero. *)
Lemma create_visualization_Ok (data : list Sample.t) (durations : list Interval.t)
    (daily_stats : gmap date day_stats) (out printed : list line) (u : unit) :
  create_visualization data durations daily_stats out = (printed, Ok u) ->
  daily_stats <> ∅
  /\ (total_standing_of daily_stats + total_sitting_of daily_stats =? 0)%float = false.
Proof.
  rewrite create_visualization_cases. simpl.
  destruct (py_min_dates (days_of daily_stats)) as [first|e] eqn:Hmin; [|done].
  destruct (py_max_dates (days_of daily_stats)) as [last|e]; [|done].
  destruct (_ + _ =? 0)%float; [done|].
  intros _. split; [|done].
  intros Hempty. rewrite Hempty in Hmin. by vm_compute in Hmin.
Qed.


Section MainFacts.
Variable parse_isoformat : string -> option datetime.
Variable parse_int : string -> option Z.
Variable files : string -> option (list (list string)).
Variable stem : string -> string.

Local Abbreviation run := (main parse_isoformat parse_int files stem).

Lemma main_main_run (csv_file : string) (events : list event) (end_ : outcome) :
  run csv_file = (events, end_) -> main_run parse_isoformat parse_int files stem csv_file events end_.
Proof.
  unfold main.
  destruct (files csv_file) as [records|] eqn:Hfile;
    [|intros [= <- <-]; by constructor].
  destruct (load_data parse_isoformat parse_int records) as [data|e] eqn:Hload;
    [|intros [= <- <-]; by econstructor].
  rewrite calculate_durations_eq.
  destruct (create_visualization _ _ _ _) as [printed [u|e]] eqn:Hsummary;
    intros [= <- <-].
  - by eapply run_returns.
  - by eapply run_summary_raises.
Qed.

(** Goes through the events of an explicit list. *)
Ltac explicit_events H :=
  repeat (apply elem_of_cons in H as [H|H]; [try discriminate H|]);
  try (by apply elem_of_nil in H).

Lemma Summary_no_Savefig (printed : list line) (f : string) :
  Savefig f ∉ Summary <$> printed.
Proof. by intros (l & [=] & _)%list_elem_of_fmap. Qed.

Lemma Summary_no_Loaded (printed : list line) (n : Z) :
  Loaded n ∉ Summary <$> printed.
Proof. by intros (l & [=] & _)%list_elem_of_fmap. Qed.

(** The image is saved only after every stage has succeeded: when a run
    calls [savefig], the file was there and loaded, the aggregate has at
    least one day and a total time that is not zero, and the image is
    named after the stem of the input path. *)
Theorem main_saves_only_after_summary (csv_file : string) (events : list event)
    (end_ : outcome) (output_file : string) :
  run csv_file = (events, end_) ->
  Savefig output_file ∈ events ->
  output_file = String.append (stem csv_file) "_visualization.png"
  /\ exists records data,
       files csv_file = Some records
       /\ load_data parse_isoformat parse_int records = Ok data
       /\ let daily_stats :=
            aggregate_by_day (interval_between <$> filter same_day (adjacent data)) in
          daily_stats <> ∅
          /\ (total_standing_of daily_stats + total_sitting_of daily_stats =? 0)%float
             = false.
Proof.
  intros Hrun%main_main_run Hsave.
  destruct Hrun as [Hfile|records e Hfile Hload|records data printed e Hfile Hload Hsum
                    |records data printed u Hfile Hload Hsum].
  - explicit_events Hsave.
  - explicit_events Hsave.
  - apply elem_of_app in Hsave as [Hsave|Hsave]; [explicit_events Hsave|].
    by apply Summary_no_Savefig in Hsave.
  - apply elem_of_app in Hsave as [Hsave|Hsave]; [explicit_events Hsave|].
    apply elem_of_app in Hsave as [Hsave|Hsave];
      [by apply Summary_no_Savefig in Hsave|].
    split; [explicit_events Hsave; by injection Hsave|].
    exists records, data. split; [done|]. split; [done|].
    by apply create_visualization_Ok in Hsum.
Qed.

(** The number of records a run reports is the number of non-empty data
    rows of the file, and it is reported only when every one of them has
    a timestamp and a height that parse. *)
Theorem main_loaded_count (csv_file : string) (events : list event) (end_ : outcome)
    (n : Z) :
  run csv_file = (events, end_) ->
  Loaded n ∈ events ->
  exists records,
    files csv_file = Some records
    /\ n = len (DictReader records)
    /\ Forall (well_formed_row parse_isoformat parse_int) (DictReader records).
Proof.
  intros Hrun%main_main_run Hloaded.
  assert (forall records data,
            files csv_file = Some records ->
            load_data parse_isoformat parse_int records = Ok data ->
            n = len data ->
            exists records,
              files csv_file = Some records
              /\ n = len (DictReader records)
              /\ Forall (well_formed_row parse_isoformat parse_int) (DictReader records))
    as Hdone.
  { intros records data Hfile [Hlen Hall]%load_data_Ok_rows ->.
    exists records. unfold len. by rewrite Hlen. }
  destruct Hrun as [Hfile|records e Hfile Hload|records data printed e Hfile Hload Hsum
                    |records data printed u Hfile Hload Hsum].
  - explicit_events Hloaded.
  - explicit_events Hloaded.
  - apply elem_of_app in Hloaded as [Hloaded|Hloaded];
      [|by apply Summary_no_Loaded in Hloaded].
    apply (Hdone records data Hfile Hload). explicit_events Hloaded.
    by injection Hloaded.
  - apply elem_of_app in Hloaded as [Hloaded|Hloaded].
    + apply (Hdone records data Hfile Hload). explicit_events Hloaded.
      by injection Hloaded.
    + apply elem_of_app in Hloaded as [Hloaded|Hloaded];
        [by apply Summary_no_Loaded in Hloaded | explicit_events Hloaded].
Qed.

End MainFacts.

Lemma main_saves_only_after_summary_witness :
  "desk_visualization.png" = String.append (example_stem "desk.csv") "_visualization.png"
  /\ exists records data,
       example_files "desk.csv" = Some records
       /\ load_data ref_parse_isoformat ref_parse_int records = Ok data
       /\ let daily_stats :=
            aggregate_by_day (interval_between <$> filter same_day (adjacent data)) in
          daily_stats <> ∅
          /\ (total_standing_of daily_stats + total_sitting_of daily_stats =? 0)%float
             = false.
Proof.
  eapply (main_saves_only_after_summary ref_parse_isoformat ref_parse_int
            example_files example_stem "desk.csv").
  - reflexivity.
  - apply list_elem_of_lookup. exists 15%nat. reflexivity.
Defined.

Lemma main_loaded_count_witness :
  exists records,
    example_files "desk.csv" = Some records
    /\ 3 = len (DictReader records)
    /\ Forall (well_formed_row ref_parse_isoformat ref_parse_int) (DictReader records).
Proof.
  eapply (main_loaded_count ref_parse_isoformat ref_parse_int
            example_files example_stem "desk.csv").
  - reflexivity.
  - apply list_elem_of_lookup. exists 1%nat. reflexivity.
Defined.


(** ** The columns the Loader reads *)

(** The body of the loader's loop reads two keys of the row and no
    other. *)
Lemma load_data_body_ext (parse_isoformat : string -> option datetime)
    (parse_int : string -> option Z) (acc : list Sample.t)
    (row row' : gmap string (option string)) :
  row !! "timestamp" = row' !! "timestamp" ->
  row !! "height_mm" = row' !! "height_mm" ->
  load_data_body parse_isoformat parse_int acc row
  = load_data_body parse_isoformat parse_int acc row'.
Proof. unfold load_data_body, dict_getitem. by intros -> ->. Qed.

Lemma DictReader_row_extra_column (fieldnames row : list string) (c v : string) :
  length row = length fieldnames ->
  DictReader_row (fieldnames ++ [c]) (row ++ [v])
  = <[c := Some v]> (DictReader_row fieldnames row).
Proof.
  intros Hlen. unfold DictReader_row.
  rewrite !length_app, Hlen, !Nat.sub_diag. cbn [replicate].
  rewrite !app_nil_r, map_app.
  rewrite zip_with_app by (by rewrite length_map).
  by rewrite foldl_app.
Qed.

(** A further column, named neither [timestamp] nor [height_mm], changes
    nothing: a file whose rows are all complete loads to the same
    samples, or fails with the same exception, with and without it. *)
Theorem extra_column_ignored (parse_isoformat : string -> option datetime)
    (parse_int : string -> option Z) (header : list string) (rows : list (list string))
    (c : string) (extras : list string) :
  c <> "timestamp" -> c <> "height_mm" ->
  header <> [] ->
  Forall (fun r => length r = length header) rows ->
  length extras = length rows ->
  load_data parse_isoformat parse_int
    ((header ++ [c]) :: zip_with (fun r v => r ++ [v]) rows extras)
  = load_data parse_isoformat parse_int (header :: rows).
Proof.
  intros Hts Hh Hheader Hrows Hextras. unfold load_data, DictReader.
  generalize (@nil Sample.t). revert extras Hextras.
  induction Hrows as [|r rows Hr Hrows IH]; intros [|v extras] Hextras acc;
    try done.
  simpl zip_with. rewrite !filter_cons.
  assert (r <> []) as Hne by (intros ->; by destruct header).
  assert (r ++ [v] <> []) as Hne' by (intros H; by apply app_nil in H as [_ ?]).
  rewrite (decide_True (P := r ++ [v] <> [])), (decide_True (P := r <> [])) by done.
  rewrite !fmap_cons. simpl for_in.
  rewrite (load_data_body_ext _ _ acc (DictReader_row (header ++ [c]) (r ++ [v]))
             (DictReader_row header r)).
  - destruct (load_data_body _ _ acc _) as [acc'|e]; simpl; [|done].
    apply IH. by injection Hextras.
  - rewrite DictReader_row_extra_column by done. by rewrite lookup_insert_ne.
  - rewrite DictReader_row_extra_column by done. by rewrite lookup_insert_ne.
Qed.

Lemma extra_column_ignored_witness :
  load_data ref_parse_isoformat ref_parse_int threshold_records_with_note
  = load_data ref_parse_isoformat ref_parse_int threshold_records.
Proof.
  apply (extra_column_ignored ref_parse_isoformat ref_parse_int
           ["timestamp"; "height_mm"]
           [ ["2024-03-01T09:00:00"; "900"]; ["2024-03-01T09:10:00"; "899"] ]
           "note" ["morning"; ""]); try done.
  repeat constructor.
Defined.

(** ** Rows and samples, dates and pairs *)

(** The Loader neither drops, nor reorders, nor repeats: the samples it
    returns are the rows of the file one by one, in the order of the
    file, each sample holding what its row's two fields parse to. *)
Theorem load_data_row_by_row (parse_isoformat : string -> option datetime)
    (parse_int : string -> option Z) (records : list (list string))
    (data : list Sample.t) :
  load_data parse_isoformat parse_int records = Ok data ->
  Forall2 (sample_of_row parse_isoformat parse_int) (DictReader records) data.
Proof.
  unfold load_data.
  assert (forall rows acc data' done,
            Forall2 (sample_of_row parse_isoformat parse_int) done acc ->
            for_in rows (load_data_body parse_isoformat parse_int) acc = Ok data' ->
            Forall2 (sample_of_row parse_isoformat parse_int) (done ++ rows) data')
    as Hloop.
  { induction rows as [|row rows IH]; intros acc data' done Hdone; simpl.
    - intros [= <-]. by rewrite app_nil_r.
    - destruct (load_data_body parse_isoformat parse_int acc row) as [acc'|e] eqn:Hbody;
        simpl; [|done].
      intros Hrun. rewrite (cons_middle row done rows), app_assoc.
      apply (IH acc'); [|exact Hrun].
      revert Hbody. unfold load_data_body, dict_getitem, fromisoformat, int.
      destruct (row !! "timestamp") as [[ts|]|] eqn:Hts; simpl; try done.
      destruct (parse_isoformat ts) as [t|] eqn:Ht; simpl; try done.
      destruct (row !! "height_mm") as [[h|]|] eqn:Hh; simpl; try done.
      destruct (parse_int h) as [z|] eqn:Hz; simpl; try done.
      intros [= <-]. apply Forall2_app; [exact Hdone|].
      constructor; [|constructor]. unfold sample_of_row. simpl.
      split; [by exists ts|]. split; [by exists h | done]. }
  intros Hrun. apply (Hloop _ [] data []) in Hrun; [exact Hrun | constructor].
Qed.

Lemma load_data_row_by_row_witness :
  Forall2 (sample_of_row ref_parse_isoformat ref_parse_int)
          (DictReader threshold_records)
          [sample_at 1 9 0 0 900; sample_at 1 9 10 0 899].
Proof.
  apply (load_data_row_by_row ref_parse_isoformat ref_parse_int threshold_records).
  vm_compute. reflexivity.
Defined.

(** A date is a key of the aggregate exactly when two adjacent samples
    fall on it: a date with a single sample, or whose samples are
    separated by samples of other dates, does not appear. *)
Theorem day_appears_iff_adjacent_pair (data : list Sample.t)
    (durations : list Interval.t) (day : date) :
  calculate_durations data = Ok durations ->
  day ∈ dom (aggregate_by_day durations)
  <-> exists (i : nat) (current next_entry : Sample.t),
        data !! i = Some current /\ data !! (i + 1)%nat = Some next_entry
        /\ date_of (Sample.timestamp current) = day
        /\ date_of (Sample.timestamp next_entry) = day.
Proof.
  rewrite calculate_durations_eq. intros [= <-].
  rewrite elem_of_dom, aggregate_by_day_is_Some. split.
  - intros (d & Hin & Hday).
    apply list_elem_of_fmap in Hin as ([cur nxt] & -> & [Hsame Hin]%list_elem_of_filter).
    apply list_elem_of_lookup in Hin as [i [Hc Hn]%adjacent_lookup].
    exists i, cur, nxt. unfold on_day, same_day in *. simpl in *.
    repeat split; try done. by rewrite <- Hsame.
  - intros (i & cur & nxt & Hc & Hn & Hdc & Hdn).
    exists (interval_between (cur, nxt)). split; [|exact Hdc].
    apply list_elem_of_fmap. exists (cur, nxt). split; [done|].
    apply list_elem_of_filter. split; [unfold same_day; simpl; congruence|].
    apply list_elem_of_lookup. exists i. by apply adjacent_lookup.
Qed.

Lemma day_appears_iff_adjacent_pair_witness :
  Date 2024 3 1 ∈ dom (aggregate_by_day scenario_intervals)
  <-> exists (i : nat) (current next_entry : Sample.t),
        scenario !! i = Some current /\ scenario !! (i + 1)%nat = Some next_entry
        /\ date_of (Sample.timestamp current) = Date 2024 3 1
        /\ date_of (Sample.timestamp next_entry) = Date 2024 3 1.
Proof.
  apply (day_appears_iff_adjacent_pair scenario scenario_intervals).
  vm_compute. reflexivity.
Defined.
